(** * MRF-NET task orchestrator: a shallow embedding of [src/index.ts]

    The orchestrator class [MicrosoftRewardsBot] distributes a list of
    accounts over worker processes and drives every account through a
    Desktop phase and a conditional Mobile phase.  Everything the class
    calls into (browser factory, pages, login, dashboard client, task
    executors, logger, cluster transport) lives outside [index.ts]; those
    collaborators are modelled as deterministic oracles that see the whole
    history of events and either return a value or throw. *)

From Stdlib Require Import String.
From Stdlib Require Import List ZArith Bool Arith Lia PeanoNat Permutation.
Import ListNotations.
Local Open Scope string_scope.
Local Open Scope list_scope.
Local Open Scope Z_scope.

(** ** Data model *)

(** [account.proxy]: the orchestrator reads [username] and [password] and
    hands the whole record to the browser factory. *)
Record Proxy := mkProxy {
  proxy_host : string;
  proxy_username : string;
  proxy_password : string
}.

Record Account := mkAccount {
  email : string;
  password : string;
  proxy : Proxy
}.

(** [config.workers] *)
Record WorkerFlags := mkWorkerFlags {
  doDailySet : bool;
  doMorePromotions : bool;
  doPunchCards : bool;
  doDesktopSearch : bool;
  doMobileSearch : bool
}.

Record Config := mkConfig {
  clusters : Z;
  runOnZeroPoints : bool;
  workers : WorkerFlags
}.

(** The part of the dashboard snapshot the orchestrator looks at:
    [data.userStatus.availablePoints] (logged) and
    [data.userStatus.counters.mobileSearch], tested for truthiness only;
    [None] stands for an absent (undefined) counter. *)
Record DashboardData := mkDashboardData {
  availablePoints : Z;
  mobileSearch : option (list Z)
}.

(** Values a JavaScript [throw] can carry out of a phase. *)
Inductive Fault :=
| DashboardUnreachable
| LoginFailed
| InvalidConfig
| ProviderFault (what : string).

(** What an awaited collaborator call does: resolve or reject. *)
Inductive outcome (A : Type) :=
| Returned (a : A)
| Threw (f : Fault).
Arguments Returned {A} a.
Arguments Threw {A} f.

(** ** Events *)

(** Third argument of [log]. *)
Inductive Level := Info | Warn | Error.

(** Calls into the collaborators, with the arguments that identify them. *)
Inductive Call :=
| CreateBrowser (mail : string) (px : Proxy) (mobile : bool)
| NewPage
| Pages
| PageClose
| Authenticate (user pass : string)
| LoginCall (mail pass : string)
| GoHome
| GetDashboardData
| GetEarnablePoints (withPage : bool)
| DoDailySet
| DoMorePromotions
| DoPunchCard
| DoSearch (mobile : bool)
| BrowserClose.

Inductive Value :=
| VUnit
| VBool (b : bool)
| VNat (n : nat)
| VInt (z : Z)
| VData (d : DashboardData).

Inductive Event :=
| Called (c : Call) (o : outcome Value)
| Logged (tag : string) (lvl : Level)
| Forked (lane : nat)
| Sent (lane : nat) (chunk : list Account).

(** Histories and emitted event lists are kept newest first. *)
Definition History := list Event.

(** ** Collaborators *)

(** One oracle per method the orchestrator awaits.  [pages] answers with
    [pages.length]; browser and page handles are implicit, a phase holds
    exactly one browser and one page of its own. *)
Record Collaborators := mkCollaborators {
  createBrowser : History -> string -> Proxy -> bool -> outcome unit;
  newPage : History -> outcome unit;
  pages : History -> outcome nat;
  pageClose : History -> outcome unit;
  authenticate : History -> string -> string -> outcome unit;
  login : History -> string -> string -> outcome unit;
  goHome : History -> outcome bool;
  getDashboardData : History -> outcome DashboardData;
  getEarnablePoints : History -> DashboardData -> bool -> outcome Z;
  workersDoDailySet : History -> DashboardData -> outcome unit;
  workersDoMorePromotions : History -> DashboardData -> outcome unit;
  workersDoPunchCard : History -> DashboardData -> outcome unit;
  doSearch : History -> DashboardData -> bool -> outcome unit;
  browserClose : History -> outcome unit
}.

(** [this.utils]: only [chunkArray] is used by the orchestrator. *)
Record Util := mkUtil {
  chunkArray : list Account -> Z -> outcome (list (list Account))
}.

(** ** The partitioner *)

(** Sizes of [n] chunks over [len] elements, as even as possible: the
    first [len mod n] chunks carry one element more. *)
Definition chunkSizes (len n : nat) : list nat :=
  (repeat (S (len / n)) (len mod n) ++ repeat (len / n) (n - len mod n))%nat.

(** Cut [l] into consecutive pieces of the given sizes. *)
Fixpoint carve {A : Type} (sizes : list nat) (l : list A) : list (list A) :=
  match sizes with
  | [] => []
  | k :: ks => firstn k l :: carve ks (skipn k l)
  end.

(** Modelled from the spec: [util/Utils.ts] (method [chunkArray] of class
    [Util]) is not part of the sources.  Section 4.1 of the specification:
    split [accounts] into [n] chunks as evenly as possible, preserving the
    original order, sizes differing by at most one; a single chunk with all
    accounts for [n = 1]; [InvalidConfig] for [n < 1]. *)
Definition partition {A : Type} (accounts : list A) (n : Z) : outcome (list (list A)) :=
  if n <? 1 then Threw InvalidConfig
  else Returned (carve (chunkSizes (length accounts) (Z.to_nat n)) accounts).

Definition specUtil : Util := {| chunkArray := partition |}.

(** Start offset of chunk [i]: the number of elements in the chunks before it. *)
Definition offset {A : Type} (chunks : list (list A)) (i : nat) : nat :=
  length (concat (firstn i chunks)).

(** ** The orchestrator monad *)

(** The mutable fields of [MicrosoftRewardsBot]. *)
Record Bot := mkBot {
  collectedPoints : Z;
  activeWorkers : Z;
  accounts : list Account
}.

(** How a piece of the program ends: it returns, an exception escapes it,
    [process.exit] ends the process, or the page-pruning loop is still
    running when the fuel is used up. *)
Inductive Result (A : Type) :=
| Ok (a : A)
| Raise (f : Fault)
| Exit (code : Z)
| Spin.
Arguments Ok {A} a.
Arguments Raise {A} f.
Arguments Exit {A} code.
Arguments Spin {A}.

(** A computation reads the history so far and the bot, and yields a
    result, the bot afterwards and the events it emitted (newest first). *)
Definition M (A : Type) : Type := History -> Bot -> Result A * Bot * list Event.

Definition ret {A : Type} (a : A) : M A := fun _ b => (Ok a, b, []).

Definition bind {A B : Type} (m : M A) (k : A -> M B) : M B :=
  fun h b =>
    match m h b with
    | (Ok a, b1, l1) =>
        match k a (l1 ++ h) b1 with
        | (r, b2, l2) => (r, b2, l2 ++ l1)
        end
    | (Raise f, b1, l1) => (Raise f, b1, l1)
    | (Exit c, b1, l1) => (Exit c, b1, l1)
    | (Spin, b1, l1) => (Spin, b1, l1)
    end.

Notation "x <- m ;; k" := (bind m (fun x => k))
  (at level 61, m at next level, right associativity).
Notation "m ;; k" := (bind m (fun _ => k))
  (at level 61, right associativity).

(** [await collaborator(...)]: ask the oracle, record the call. *)
Definition invoke {A : Type} (c : Call) (inj : A -> Value)
    (oracle : History -> outcome A) : M A :=
  fun h b =>
    match oracle h with
    | Returned a => (Ok a, b, [Called c (Returned (inj a))])
    | Threw f => (Raise f, b, [Called c (Threw f)])
    end.

Abbreviation VUnit' := (fun _ : unit => VUnit).

(** A synchronous call that either returns or throws, without an event. *)
Definition lift {A : Type} (o : outcome A) : M A :=
  fun _ b => match o with
             | Returned a => (Ok a, b, [])
             | Threw f => (Raise f, b, [])
             end.

Definition log (tag : string) (lvl : Level) : M unit :=
  fun _ b => (Ok tt, b, [Logged tag lvl]).

Definition throw {A : Type} (f : Fault) : M A := fun _ b => (Raise f, b, []).

Definition processExit {A : Type} (code : Z) : M A := fun _ b => (Exit code, b, []).

Definition spin {A : Type} : M A := fun _ b => (Spin, b, []).

Definition this : M Bot := fun _ b => (Ok b, b, []).

Definition setCollectedPoints (v : Z) : M unit :=
  fun _ b => (Ok tt, mkBot v (activeWorkers b) (accounts b), []).

Definition setActiveWorkers (v : Z) : M unit :=
  fun _ b => (Ok tt, mkBot (collectedPoints b) v (accounts b), []).

Definition setAccounts (l : list Account) : M unit :=
  fun _ b => (Ok tt, mkBot (collectedPoints b) (activeWorkers b) l, []).

Definition when (c : bool) (m : M unit) : M unit := if c then m else ret tt.

(** Accessors for the triple a run yields. *)
Definition result {A : Type} (x : Result A * Bot * list Event) : Result A := fst (fst x).
Definition after {A : Type} (x : Result A * Bot * list Event) : Bot := snd (fst x).
Definition emitted {A : Type} (x : Result A * Bot * list Event) : list Event := snd x.

(** ** The world a process runs in *)

(** What the loaders supply, the collaborators, and the number of
    iterations of the page-pruning loop a run is followed for. *)
Class World := mkWorld {
  cfg : Config;
  loadAccounts : list Account;
  env : Collaborators;
  utils : Util;
  fuel : nat
}.

(** ** The orchestrator, [class MicrosoftRewardsBot] *)

(** Field initialisers and constructor: [collectedPoints = 0],
    [accounts = []], [activeWorkers = config.clusters]. *)
Definition newBot `{World} : Bot := mkBot 0 (clusters cfg) [].

(** [initialize] *)
Definition initialize `{World} : M unit := setAccounts loadAccounts.

(** Lines 130-133 and 194-197:
    [while (pages.length > 2) { await pages[0]?.close(); pages = await browser.pages() }]
    with [n] the current [pages.length]. *)
Fixpoint prune `{World} (gas : nat) (n : nat) : M unit :=
  if (2 <? n)%nat then
    match gas with
    | O => spin
    | S gas' =>
        invoke PageClose VUnit' (pageClose env) ;;
        n' <- invoke Pages VNat (pages env) ;;
        prune gas' n'
    end
  else ret tt.

(** [Desktop], lines 124-185. *)
Definition Desktop `{World} (account : Account) : M unit :=
  invoke (CreateBrowser (email account) (proxy account) false) VUnit'
    (fun h => createBrowser env h (email account) (proxy account) false) ;;
  invoke NewPage VUnit' (newPage env) ;;
  n <- invoke Pages VNat (pages env) ;;
  prune fuel n ;;
  invoke (Authenticate (proxy_username (proxy account)) (proxy_password (proxy account))) VUnit'
    (fun h => authenticate env h (proxy_username (proxy account)) (proxy_password (proxy account))) ;;
  log "MAIN" Info ;;
  invoke (LoginCall (email account) (password account)) VUnit'
    (fun h => login env h (email account) (password account)) ;;
  wentHome <- invoke GoHome VBool (goHome env) ;;
  when (negb wentHome) (log "MAIN" Error ;; throw DashboardUnreachable) ;;
  data <- invoke GetDashboardData VData (getDashboardData env) ;;
  log "MAIN-POINTS" Info ;;
  earnablePoints <- invoke (GetEarnablePoints false) VInt
    (fun h => getEarnablePoints env h data false) ;;
  setCollectedPoints earnablePoints ;;
  log "MAIN-POINTS" Info ;;
  bot <- this ;;
  if negb (runOnZeroPoints cfg) && (collectedPoints bot =? 0) then
    log "MAIN" Info ;;
    invoke BrowserClose VUnit' (browserClose env)
  else
    when (doDailySet (workers cfg))
      (invoke DoDailySet VUnit' (fun h => workersDoDailySet env h data)) ;;
    when (doMorePromotions (workers cfg))
      (invoke DoMorePromotions VUnit' (fun h => workersDoMorePromotions env h data)) ;;
    when (doPunchCards (workers cfg))
      (invoke DoPunchCard VUnit' (fun h => workersDoPunchCard env h data)) ;;
    when (doDesktopSearch (workers cfg))
      (invoke (DoSearch false) VUnit' (fun h => doSearch env h data false)) ;;
    invoke BrowserClose VUnit' (browserClose env).

(** [Mobile], lines 188-232.  The result of [goHome] is dropped. *)
Definition Mobile `{World} (account : Account) : M unit :=
  invoke (CreateBrowser (email account) (proxy account) true) VUnit'
    (fun h => createBrowser env h (email account) (proxy account) true) ;;
  invoke NewPage VUnit' (newPage env) ;;
  n <- invoke Pages VNat (pages env) ;;
  prune fuel n ;;
  invoke (Authenticate (proxy_username (proxy account)) (proxy_password (proxy account))) VUnit'
    (fun h => authenticate env h (proxy_username (proxy account)) (proxy_password (proxy account))) ;;
  log "MAIN" Info ;;
  invoke (LoginCall (email account) (password account)) VUnit'
    (fun h => login env h (email account) (password account)) ;;
  invoke GoHome VBool (goHome env) ;;
  data <- invoke GetDashboardData VData (getDashboardData env) ;;
  match mobileSearch data with
  | None =>
      log "MAIN" Info ;;
      invoke BrowserClose VUnit' (browserClose env)
  | Some _ =>
      when (doMobileSearch (workers cfg))
        (invoke (DoSearch true) VUnit' (fun h => doSearch env h data true)) ;;
      earnablePoints <- invoke (GetEarnablePoints true) VInt
        (fun h => getEarnablePoints env h data true) ;;
      bot <- this ;;
      setCollectedPoints
        (if earnablePoints =? 0 then collectedPoints bot
         else collectedPoints bot - earnablePoints) ;;
      log "MAIN-POINTS" Info ;;
      invoke BrowserClose VUnit' (browserClose env)
  end.

(** Body of the [for (const account of accounts)] loop of [runTasks],
    lines 102-115; [continue] ends the body early. *)
Definition runAccount `{World} (account : Account) : M unit :=
  log "MAIN-WORKER" Info ;;
  Desktop account ;;
  bot <- this ;;
  if negb (runOnZeroPoints cfg) && (collectedPoints bot =? 0) then
    ret tt
  else
    Mobile account ;;
    log "MAIN-WORKER" Info.

Fixpoint forAccounts `{World} (chunk : list Account) : M unit :=
  match chunk with
  | [] => ret tt
  | account :: rest => runAccount account ;; forAccounts rest
  end.

(** [runTasks], lines 100-121. *)
Definition runTasks `{World} (chunk : list Account) : M unit :=
  forAccounts chunk ;;
  log "MAIN-PRIMARY" Info ;;
  log "MAIN-PRIMARY" Info ;;
  processExit 0.

(** [cluster.fork()] and [worker.send({ chunk })]; the lane forked in
    iteration [i] is identified by [i]. *)
Definition fork (i : nat) : M unit := fun _ b => (Ok tt, b, [Forked i]).
Definition send (i : nat) (chunk : list Account) : M unit :=
  fun _ b => (Ok tt, b, [Sent i chunk]).

(** The loop of lines 73-77, from index [i] on. *)
Fixpoint forkAll (i : nat) (accountChunks : list (list Account)) : M unit :=
  match accountChunks with
  | [] => ret tt
  | chunk :: rest => fork i ;; send i chunk ;; forkAll (S i) rest
  end.

(** [runMaster], lines 68-78; the handler it registers is [onExit]. *)
Definition runMaster `{World} : M unit :=
  log "MAIN-PRIMARY" Info ;;
  bot <- this ;;
  accountChunks <- lift (chunkArray utils (accounts bot) (clusters cfg)) ;;
  forkAll 0 accountChunks.

(** The [cluster.on('exit', ...)] handler, lines 79-89. *)
Definition onExit (worker : nat) (code : Z) : M unit :=
  bot <- this ;;
  setActiveWorkers (activeWorkers bot - 1) ;;
  log "MAIN-WORKER" Warn ;;
  bot' <- this ;;
  if activeWorkers bot' =? 0 then
    log "MAIN-WORKER" Warn ;;
    processExit 0
  else ret tt.

(** [runWorker], lines 92-98; the handler it registers is [onMessage]. *)
Definition runWorker : M unit := log "MAIN-WORKER" Info.

Definition onMessage `{World} (chunk : list Account) : M unit := runTasks chunk.

(** [run], lines 53-66; [isPrimary] is [cluster.isPrimary]. *)
Definition run `{World} (isPrimary : bool) : M unit :=
  log "MAIN" Info ;;
  if 1 <? clusters cfg then
    if isPrimary then runMaster else runWorker
  else
    bot <- this ;;
    runTasks (accounts bot).

(** Lines 235-240: [bot.initialize().then(() => bot.run())]. *)
Definition main `{World} (isPrimary : bool) : M unit :=
  initialize ;; run isPrimary.

(** The event loop of the primary after [run] has returned: exit
    notifications [(worker, code)] are handed to [onExit] one at a time, in
    their order of arrival, for as long as the process lives. *)
Fixpoint deliver (signals : list (nat * Z)) : M unit :=
  match signals with
  | [] => ret tt
  | (worker, code) :: rest => onExit worker code ;; deliver rest
  end.

Definition coordinator `{World} (signals : list (nat * Z)) : M unit :=
  main true ;; deliver signals.

(** A lane: a forked process, which receives its chunk once. *)
Definition lane `{World} (chunk : list Account) : M unit :=
  main false ;; onMessage chunk.

(** ** The points gate, as the specification words it *)

(** Section 4.5: [shouldSkip(runOnZeroPoints, collectedPoints) =
    !runOnZeroPoints && collectedPoints == 0]. *)
Definition shouldSkip (runOnZeroPoints : bool) (collectedPoints : Z) : bool :=
  negb runOnZeroPoints && (collectedPoints =? 0).

(** ** Observations on event lists *)

Fixpoint count (p : Event -> bool) (l : list Event) : nat :=
  match l with
  | [] => O
  | e :: l' => ((if p e then 1 else 0) + count p l')%nat
  end.

(** Events of the page-pruning loop. *)
Definition isPruning (e : Event) : bool :=
  match e with
  | Called PageClose _ | Called Pages _ => true
  | _ => false
  end.

Definition quiet (l : list Event) : Prop := Forall (fun e => isPruning e = true) l.

Definition isClose (e : Event) : bool :=
  match e with Called BrowserClose _ => true | _ => false end.

Definition isSession (e : Event) : bool :=
  match e with Called (CreateBrowser _ _ _) _ => true | _ => false end.

Definition isMobileSession (e : Event) : bool :=
  match e with Called (CreateBrowser _ _ true) _ => true | _ => false end.

Definition isMobileSearch (e : Event) : bool :=
  match e with Called (DoSearch true) _ => true | _ => false end.

Definition isRefetch (e : Event) : bool :=
  match e with Called (GetEarnablePoints true) _ => true | _ => false end.

Definition isCall (e : Event) : bool :=
  match e with Called _ _ => true | _ => false end.

Definition isFork (e : Event) : bool :=
  match e with Forked _ => true | _ => false end.

(** The task executors of the Desktop phase. *)
Inductive Executor := DailySet | MorePromotions | PunchCards | DesktopSearch.

Definition executorOf (e : Event) : option Executor :=
  match e with
  | Called DoDailySet _ => Some DailySet
  | Called DoMorePromotions _ => Some MorePromotions
  | Called DoPunchCard _ => Some PunchCards
  | Called (DoSearch false) _ => Some DesktopSearch
  | _ => None
  end.

(** Executors invoked, in the order of invocation (oldest first). *)
Fixpoint executors (l : list Event) : list Executor :=
  match l with
  | [] => []
  | e :: l' =>
      executors l' ++ match executorOf e with Some x => [x] | None => [] end
  end.

(** The executors the configuration enables, in the order of lines 163-181. *)
Definition enabledExecutors (w : WorkerFlags) : list Executor :=
  (if doDailySet w then [DailySet] else []) ++
  (if doMorePromotions w then [MorePromotions] else []) ++
  (if doPunchCards w then [PunchCards] else []) ++
  (if doDesktopSearch w then [DesktopSearch] else []).

(** The newest earnable-points figure a call with the given [withPage]
    returned. *)
Fixpoint fetched (withPage : bool) (l : list Event) : option Z :=
  match l with
  | [] => None
  | Called (GetEarnablePoints p) (Returned (VInt v)) :: l' =>
      if Bool.eqb p withPage then Some v else fetched withPage l'
  | _ :: l' => fetched withPage l'
  end.

(** The newest dashboard snapshot a fetch returned. *)
Fixpoint dashboard (l : list Event) : option DashboardData :=
  match l with
  | [] => None
  | Called GetDashboardData (Returned (VData d)) :: _ => Some d
  | _ :: l' => dashboard l'
  end.

(** The newest answer of [goHome]. *)
Fixpoint homeAnswer (l : list Event) : option bool :=
  match l with
  | [] => None
  | Called GoHome (Returned (VBool x)) :: _ => Some x
  | _ :: l' => homeAnswer l'
  end.

(** Lane events in the order they happened: forks and sends. *)
Fixpoint transport (l : list Event) : list Event :=
  match l with
  | [] => []
  | e :: l' =>
      transport l' ++ match e with
                      | Forked _ | Sent _ _ => [e]
                      | _ => []
                      end
  end.

(** What forking and feeding the chunks one after the other looks like. *)
Fixpoint fanOut (i : nat) (chunks : list (list Account)) : list Event :=
  match chunks with
  | [] => []
  | chunk :: rest => Forked i :: Sent i chunk :: fanOut (S i) rest
  end.

(** The two kinds of phase of section 3. *)
Inductive SessionPhase := DesktopPhase | MobilePhase.

Definition runPhase `{World} (p : SessionPhase) : Account -> M unit :=
  match p with
  | DesktopPhase => Desktop
  | MobilePhase => Mobile
  end.

(** ** Sample worlds *)

Definition alice : Account :=
  mkAccount "alice@example.org" "pw-a" (mkProxy "proxy-1" "pa" "ppa").
Definition bob : Account :=
  mkAccount "bob@example.org" "pw-b" (mkProxy "proxy-2" "pb" "ppb").
Definition carol : Account :=
  mkAccount "carol@example.org" "pw-c" (mkProxy "proxy-3" "pc" "ppc").

Definition allFlags : WorkerFlags := mkWorkerFlags true true true true true.

(** Collaborators that never fail: [k] pages at first, one fewer after
    every page closed; [earn withPage] points to earn; the dashboard [d]. *)
Definition openPages (k : nat) (h : History) : nat :=
  (k - count (fun e => match e with Called PageClose _ => true | _ => false end) h)%nat.

Definition calm (k : nat) (home : bool) (d : DashboardData) (earn : bool -> Z) : Collaborators :=
  {| createBrowser := fun _ _ _ _ => Returned tt;
     newPage := fun _ => Returned tt;
     pages := fun h => Returned (openPages k h);
     pageClose := fun _ => Returned tt;
     authenticate := fun _ _ _ => Returned tt;
     login := fun _ _ _ => Returned tt;
     goHome := fun _ => Returned home;
     getDashboardData := fun _ => Returned d;
     getEarnablePoints := fun _ _ withPage => Returned (earn withPage);
     workersDoDailySet := fun _ _ => Returned tt;
     workersDoMorePromotions := fun _ _ => Returned tt;
     workersDoPunchCard := fun _ _ => Returned tt;
     doSearch := fun _ _ _ => Returned tt;
     browserClose := fun _ => Returned tt |}.

(** The same, with a login service that rejects the credentials. *)
Definition rejecting (c : Collaborators) : Collaborators :=
  {| createBrowser := createBrowser c;
     newPage := newPage c;
     pages := pages c;
     pageClose := pageClose c;
     authenticate := authenticate c;
     login := fun _ _ _ => Threw LoginFailed;
     goHome := goHome c;
     getDashboardData := getDashboardData c;
     getEarnablePoints := getEarnablePoints c;
     workersDoDailySet := workersDoDailySet c;
     workersDoMorePromotions := workersDoMorePromotions c;
     workersDoPunchCard := workersDoPunchCard c;
     doSearch := doSearch c;
     browserClose := browserClose c |}.

Definition withCounter : DashboardData := mkDashboardData 1200 (Some [0; 60]).
Definition freshAccount : DashboardData := mkDashboardData 0 None.

Definition sampleWorld (n : Z) (roz : bool) (flags : WorkerFlags)
    (c : Collaborators) : World :=
  {| cfg := mkConfig n roz flags;
     loadAccounts := [alice; bob; carol];
     env := c;
     utils := specUtil;
     fuel := 8 |}.

(** The same, with a dashboard that can be reached only while no session
    has been closed yet. *)
Definition homesick (c : Collaborators) : Collaborators :=
  {| createBrowser := createBrowser c;
     newPage := newPage c;
     pages := pages c;
     pageClose := pageClose c;
     authenticate := authenticate c;
     login := login c;
     goHome := fun h => Returned (count isClose h =? 0)%nat;
     getDashboardData := getDashboardData c;
     getEarnablePoints := getEarnablePoints c;
     workersDoDailySet := workersDoDailySet c;
     workersDoMorePromotions := workersDoMorePromotions c;
     workersDoPunchCard := workersDoPunchCard c;
     doSearch := doSearch c;
     browserClose := browserClose c |}.

(** Thirty points to earn, [left] of them still open after the mobile search. *)
Definition thirty (left : Z) (withPage : bool) : Z := if withPage then left else 30.

Definition thirtyTen : World :=
  sampleWorld 1 false allFlags (calm 4 true withCounter (thirty 10)).
Definition thirtyZero : World :=
  sampleWorld 1 false allFlags (calm 4 true withCounter (thirty 0)).
Definition nothingToEarn : World :=
  sampleWorld 1 false allFlags (calm 2 true withCounter (fun _ => 0)).
Definition lockedOut : World :=
  sampleWorld 1 false allFlags (rejecting (calm 4 true withCounter (thirty 10))).
Definition secondHomeFails : World :=
  sampleWorld 1 true allFlags (homesick (calm 2 true freshAccount (fun _ => 5))).
Definition newcomer : World :=
  sampleWorld 1 true allFlags (calm 2 true freshAccount (fun _ => 5)).
Definition pickyFlags : WorkerFlags := mkWorkerFlags true false true true false.
Definition picky : World :=
  sampleWorld 1 false pickyFlags (calm 3 true withCounter (thirty 10)).
Definition threeLanes : World :=
  sampleWorld 3 false allFlags (calm 2 true withCounter (thirty 10)).

(** ** Further observations *)

Definition isThrow (e : Event) : bool :=
  match e with Called _ (Threw _) => true | _ => false end.

(** A browser the factory has handed out. *)
Definition isOpened (e : Event) : bool :=
  match e with Called (CreateBrowser _ _ _) (Returned _) => true | _ => false end.

Definition isPageClose (e : Event) : bool :=
  match e with Called PageClose _ => true | _ => false end.

Definition isDashboardFetch (e : Event) : bool :=
  match e with Called GetDashboardData _ => true | _ => false end.

(** Accounts a Desktop session was asked for, oldest first. *)
Fixpoint desktopMails (l : list Event) : list string :=
  match l with
  | [] => []
  | e :: l' =>
      desktopMails l' ++ match e with
                         | Called (CreateBrowser m _ false) _ => [m]
                         | _ => []
                         end
  end.

(** Position of a call in the text of a phase; the calls of the pruning
    loop, which repeat, have none. *)
Definition rank (c : Call) : option nat :=
  match c with
  | CreateBrowser _ _ _ => Some 0
  | NewPage => Some 1
  | Pages | PageClose => None
  | Authenticate _ _ => Some 2
  | LoginCall _ _ => Some 3
  | GoHome => Some 4
  | GetDashboardData => Some 5
  | GetEarnablePoints false => Some 6
  | DoDailySet => Some 7
  | DoMorePromotions => Some 8
  | DoPunchCard => Some 9
  | DoSearch _ => Some 10
  | GetEarnablePoints true => Some 11
  | BrowserClose => Some 12
  end%nat.

(** Ranks of the calls made, oldest first. *)
Fixpoint ranks (l : list Event) : list nat :=
  match l with
  | [] => []
  | e :: l' =>
      ranks l' ++ match e with
                  | Called c _ => match rank c with Some k => [k] | None => [] end
                  | _ => []
                  end
  end.

Fixpoint increasing (l : list nat) : bool :=
  match l with
  | [] => true
  | x :: l' =>
      match l' with
      | [] => true
      | y :: _ => (x <? y)%nat && increasing l'
      end
  end.

(** An event a phase of kind [mobile] may emit on behalf of [account]. *)
Definition belongs (account : Account) (mobile : bool) (e : Event) : Prop :=
  match e with
  | Called (CreateBrowser m px mob) _ =>
      m = email account /\ px = proxy account /\ mob = mobile
  | Called (Authenticate u pw) _ =>
      u = proxy_username (proxy account) /\ pw = proxy_password (proxy account)
  | Called (LoginCall m pw) _ => m = email account /\ pw = password account
  | Called (GetEarnablePoints withPage) _ => withPage = mobile
  | Called (DoSearch mob) _ => mob = mobile
  | Called DoDailySet _ | Called DoMorePromotions _ | Called DoPunchCard _ =>
      mobile = false
  | Called _ _ | Logged _ _ => True
  | Forked _ | Sent _ _ => False
  end.

Definition isMobile (p : SessionPhase) : bool :=
  match p with DesktopPhase => false | MobilePhase => true end.

Definition isPointsFetch (e : Event) : bool :=
  match e with Called (GetEarnablePoints false) _ => true | _ => false end.

(** A mobile search that ended in a fault. *)
Definition searchThrew (e : Event) : bool :=
  match e with Called (DoSearch true) (Threw _) => true | _ => false end.

(** The events newer than the newest second points fetch (all of them
    when there is none). *)
Fixpoint sinceRefetch (l : list Event) : list Event :=
  match l with
  | [] => []
  | e :: l' => if isRefetch e then [] else e :: sinceRefetch l'
  end.

(** Traces of a fault: a call that threw, or [goHome] answering [false]
    as its newest answer. *)
Definition faulted (l : list Event) : Prop :=
  (1 <= count isThrow l)%nat \/ homeAnswer l = Some false.

(** Trace of a pruning loop that is still going: the newest event is an
    answer of more than two pages. *)
Definition stuck (l : list Event) : Prop :=
  exists m l', l = Called Pages (Returned (VNat m)) :: l' /\ (2 < m)%nat.

(** A partitioner that puts every account into one chunk, whatever the
    number asked for, and a world with three clusters that uses it. *)
Definition lumpUtil : Util := {| chunkArray := fun l _ => Returned [l] |}.

Definition lumped : World :=
  {| cfg := mkConfig 3 false allFlags;
     loadAccounts := [alice; bob; carol];
     env := calm 2 true withCounter (thirty 10);
     utils := lumpUtil;
     fuel := 8 |}.

(** ** Partitioner facts *)

(** The gate on the three inputs of section 8. *)
Lemma shouldSkip_table :
  shouldSkip false 0 = true /\ shouldSkip true 0 = false /\ shouldSkip false 5 = false.
Proof. repeat split. Qed.


Lemma carve_concat {A : Type} (sizes : list nat) (l : list A) :
  list_sum sizes = length l -> concat (carve sizes l) = l.
Proof.
  revert l; induction sizes as [|k ks IH]; intros l H; simpl in *.
  - symmetry in H. apply length_zero_iff_nil in H. now subst.
  - rewrite IH.
    + apply firstn_skipn.
    + rewrite length_skipn. lia.
Qed.

Lemma carve_lengths {A : Type} (sizes : list nat) (l : list A) :
  list_sum sizes = length l -> map (@length A) (carve sizes l) = sizes.
Proof.
  revert l; induction sizes as [|k ks IH]; intros l H; simpl in *; [reflexivity|].
  rewrite IH by (rewrite length_skipn; lia).
  rewrite length_firstn. f_equal. lia.
Qed.

Lemma carve_count {A : Type} (sizes : list nat) (l : list A) :
  length (carve sizes l) = length sizes.
Proof.
  revert l; induction sizes as [|k ks IH]; intros l; simpl; [reflexivity|].
  now rewrite IH.
Qed.

Lemma list_sum_repeat (k m : nat) : list_sum (repeat k m) = (m * k)%nat.
Proof. induction m; simpl; lia. Qed.

Lemma chunkSizes_sum (len n : nat) : (0 < n)%nat -> list_sum (chunkSizes len n) = len.
Proof.
  intros Hn. unfold chunkSizes.
  rewrite list_sum_app, !list_sum_repeat.
  pose proof (Nat.div_mod_eq len n) as E.
  pose proof (Nat.mod_upper_bound len n ltac:(lia)) as B.
  nia.
Qed.

Lemma chunkSizes_count (len n : nat) : (0 < n)%nat -> length (chunkSizes len n) = n.
Proof.
  intros Hn. unfold chunkSizes. rewrite length_app, !repeat_length.
  pose proof (Nat.mod_upper_bound len n ltac:(lia)). lia.
Qed.

Lemma chunkSizes_even (len n k : nat) :
  In k (chunkSizes len n) -> (len / n <= k <= S (len / n))%nat.
Proof.
  unfold chunkSizes. rewrite in_app_iff.
  intros [H|H]; apply repeat_spec in H; lia.
Qed.

(** A chunk of any list of lists is the slice of the concatenation that
    starts where the chunks before it end. *)
Lemma concat_slice {A : Type} (chunks : list (list A)) (i : nat) :
  (i < length chunks)%nat ->
  nth i chunks [] =
  firstn (length (nth i chunks [])) (skipn (offset chunks i) (concat chunks)).
Proof.
  unfold offset. revert i; induction chunks as [|c cs IH]; intros i Hi; simpl in *; [lia|].
  destruct i as [|i]; simpl.
  - rewrite firstn_app, Nat.sub_diag, firstn_all. simpl. now rewrite app_nil_r.
  - rewrite length_app, skipn_app.
    rewrite skipn_all2 by lia. simpl.
    replace (length c + length (concat (firstn i cs)) - length c)%nat
      with (length (concat (firstn i cs))) by lia.
    apply IH. lia.
Qed.

Lemma offset_succ {A : Type} (chunks : list (list A)) (i : nat) :
  (i < length chunks)%nat ->
  offset chunks (S i) = (offset chunks i + length (nth i chunks []))%nat.
Proof.
  unfold offset. revert i; induction chunks as [|c cs IH]; intros i Hi; simpl in *; [lia|].
  destruct i as [|i]; simpl.
  - rewrite app_nil_r. lia.
  - rewrite !length_app. rewrite IH by lia. lia.
Qed.

(** C2. For every account list and every worker count [n >= 1] the
    partitioner returns exactly [n] chunks whose concatenation is the input
    list; chunk [i] is the slice of the input that starts where chunk
    [i-1] ends (so the chunks keep the order and do not overlap), and any
    two chunks differ in size by at most one. *)
Theorem partition_even_cover {A : Type} (accounts : list A) (n : Z) :
  1 <= n ->
  exists chunks,
    partition accounts n = Returned chunks /\
    length chunks = Z.to_nat n /\
    concat chunks = accounts /\
    (forall i, (i < length chunks)%nat ->
       nth i chunks [] =
         firstn (length (nth i chunks [])) (skipn (offset chunks i) accounts) /\
       offset chunks (S i) = (offset chunks i + length (nth i chunks []))%nat) /\
    (forall c1 c2, In c1 chunks -> In c2 chunks ->
       (length c1 <= length c2 + 1)%nat).
Proof.
  intros Hn. unfold partition.
  destruct (n <? 1) eqn:E; [apply Z.ltb_lt in E; lia|].
  set (sizes := chunkSizes (length accounts) (Z.to_nat n)).
  assert (Hpos : (0 < Z.to_nat n)%nat) by lia.
  assert (Hsum : list_sum sizes = length accounts) by (apply chunkSizes_sum; exact Hpos).
  exists (carve sizes accounts). split; [reflexivity|].
  pose proof (carve_concat sizes accounts Hsum) as Hcat.
  repeat split.
  - rewrite carve_count. apply chunkSizes_count; exact Hpos.
  - exact Hcat.
  - pose proof (concat_slice (carve sizes accounts) i H) as Hs.
    now rewrite Hcat in Hs.
  - now apply offset_succ.
  - intros c1 c2 H1 H2.
    assert (Hin : forall c, In c (carve sizes accounts) -> In (length c) sizes).
    { intros c Hc. rewrite <- (carve_lengths sizes accounts Hsum). now apply in_map. }
    apply Hin in H1, H2.
    apply chunkSizes_even in H1, H2. lia.
Qed.

Lemma partition_even_cover_witness :
  partition [1; 2; 3; 4; 5; 6; 7] 3 = Returned [[1; 2; 3]; [4; 5]; [6; 7]] /\
  exists chunks, partition [1; 2; 3; 4; 5; 6; 7] 3 = Returned chunks /\
                 length chunks = 3%nat /\ concat chunks = [1; 2; 3; 4; 5; 6; 7].
Proof.
  split; [reflexivity|].
  destruct (partition_even_cover [1; 2; 3; 4; 5; 6; 7] 3 ltac:(lia))
    as (chunks & H1 & H2 & H3 & _).
  exists chunks. repeat split; assumption.
Defined.

(** ** Observations: how they split over appended event lists *)

Lemma count_app p l1 l2 : count p (l1 ++ l2) = (count p l1 + count p l2)%nat.
Proof. induction l1 as [|e l1 IH]; simpl; [reflexivity|]. rewrite IH. lia. Qed.

Lemma executors_app l1 l2 : executors (l1 ++ l2) = executors l2 ++ executors l1.
Proof.
  induction l1 as [|e l1 IH]; simpl.
  - now rewrite app_nil_r.
  - now rewrite IH, app_assoc.
Qed.

Lemma transport_app l1 l2 : transport (l1 ++ l2) = transport l2 ++ transport l1.
Proof.
  induction l1 as [|e l1 IH]; simpl.
  - now rewrite app_nil_r.
  - now rewrite IH, app_assoc.
Qed.

Lemma fetched_app p l1 l2 :
  fetched p (l1 ++ l2) =
  match fetched p l1 with Some v => Some v | None => fetched p l2 end.
Proof.
  induction l1 as [|e l1 IH]; simpl; [reflexivity|].
  destruct e as [c o| | |]; try exact IH.
  destruct c; try exact IH.
  destruct o as [v|]; try exact IH.
  destruct v; try exact IH.
  destruct (Bool.eqb withPage p); [reflexivity|exact IH].
Qed.

Lemma dashboard_app l1 l2 :
  dashboard (l1 ++ l2) =
  match dashboard l1 with Some d => Some d | None => dashboard l2 end.
Proof.
  induction l1 as [|e l1 IH]; simpl; [reflexivity|].
  destruct e as [c o| | |]; try exact IH.
  destruct c; try exact IH.
  destruct o as [v|]; try exact IH.
  destruct v; try exact IH.
  reflexivity.
Qed.

Lemma homeAnswer_app l1 l2 :
  homeAnswer (l1 ++ l2) =
  match homeAnswer l1 with Some x => Some x | None => homeAnswer l2 end.
Proof.
  induction l1 as [|e l1 IH]; simpl; [reflexivity|].
  destruct e as [c o| | |]; try exact IH.
  destruct c; try exact IH.
  destruct o as [v|]; try exact IH.
  destruct v; try exact IH.
  reflexivity.
Qed.

(** The pruning loop is invisible to every observation used below. *)
Lemma quiet_count p l :
  (forall e, isPruning e = true -> p e = false) -> quiet l -> count p l = O.
Proof.
  intros Hp Hq. induction Hq as [|e l He _ IH]; simpl; [reflexivity|].
  now rewrite (Hp e He), IH.
Qed.

Ltac pruning_case :=
  let e := fresh "e" in
  intros e; destruct e as [[] ?| | |]; simpl; intros; congruence.

Lemma quiet_closes l : quiet l -> count isClose l = O.
Proof. apply quiet_count. pruning_case. Qed.

Lemma quiet_mobileSessions l : quiet l -> count isMobileSession l = O.
Proof. apply quiet_count. pruning_case. Qed.

Lemma quiet_mobileSearches l : quiet l -> count isMobileSearch l = O.
Proof. apply quiet_count. pruning_case. Qed.

Lemma quiet_refetches l : quiet l -> count isRefetch l = O.
Proof. apply quiet_count. pruning_case. Qed.

Lemma quiet_forks l : quiet l -> count isFork l = O.
Proof. apply quiet_count. pruning_case. Qed.

Lemma quiet_executors l : quiet l -> executors l = [].
Proof.
  intros Hq. induction Hq as [|e l He _ IH]; simpl; [reflexivity|].
  rewrite IH. destruct e as [[] ?| | |]; simpl in *; congruence.
Qed.

Lemma quiet_transport l : quiet l -> transport l = [].
Proof.
  intros Hq. induction Hq as [|e l He _ IH]; simpl; [reflexivity|].
  rewrite IH. destruct e as [[] ?| | |]; simpl in *; congruence.
Qed.

Lemma quiet_fetched p l : quiet l -> fetched p l = None.
Proof.
  intros Hq. induction Hq as [|e l He _ IH]; simpl; [reflexivity|].
  destruct e as [[] ?| | |]; simpl in *; try congruence;
    destruct o as [[]|]; assumption.
Qed.

Lemma quiet_dashboard l : quiet l -> dashboard l = None.
Proof.
  intros Hq. induction Hq as [|e l He _ IH]; simpl; [reflexivity|].
  destruct e as [[] ?| | |]; simpl in *; try congruence;
    destruct o as [[]|]; assumption.
Qed.

Lemma quiet_homeAnswer l : quiet l -> homeAnswer l = None.
Proof.
  intros Hq. induction Hq as [|e l He _ IH]; simpl; [reflexivity|].
  destruct e as [[] ?| | |]; simpl in *; try congruence;
    destruct o as [[]|]; assumption.
Qed.

(** ** The page-pruning loop *)

Section Orchestrator.
Context `{W : World}.

(** Whatever the session provider answers, the loop leaves the bot alone,
    emits only its own two kinds of call, and does not end the process. *)
Lemma prune_spec gas n h b :
  exists r l, prune gas n h b = (r, b, l) /\ quiet l /\
              (r = Ok tt \/ r = Spin \/ exists f, r = Raise f).
Proof.
  revert n h. induction gas as [|gas IH]; intros n h; simpl.
  - destruct (2 <? n)%nat.
    + exists Spin, []. repeat split; [constructor | auto].
    + exists (Ok tt), []. repeat split; [constructor | auto].
  - destruct (2 <? n)%nat.
    2:{ exists (Ok tt), []. repeat split; [constructor | auto]. }
    unfold bind, invoke.
    destruct (pageClose env h) as [[]|f].
    2:{ exists (Raise f), [Called PageClose (Threw f)].
        repeat split; [repeat constructor | eauto]. }
    simpl. destruct (pages env _) as [n'|f].
    2:{ exists (Raise f), [Called Pages (Threw f); Called PageClose (Returned VUnit)].
        repeat split; [repeat constructor | eauto]. }
    simpl.
    destruct (IH n' (Called Pages (Returned (VNat n')) ::
                     Called PageClose (Returned VUnit) :: h))
      as (r & l & E & Hq & Hr).
    rewrite E.
    exists r, ((l ++ [Called Pages (Returned (VNat n'))]) ++ [Called PageClose (Returned VUnit)]).
    split; [|split; [|exact Hr]].
    + destruct Hr as [-> | [-> | [f ->]]]; reflexivity.
    + unfold quiet. rewrite !Forall_app. repeat split; try assumption; repeat constructor.
Qed.

(** Symbolic execution of a phase: follow the program, splitting on every
    answer of a collaborator, every flag and the outcome of the loop. *)
Ltac quieten :=
  repeat match goal with
  | Hq : quiet ?l |- _ =>
      progress (rewrite ?(quiet_closes l Hq), ?(quiet_mobileSessions l Hq),
                 ?(quiet_mobileSearches l Hq), ?(quiet_refetches l Hq),
                 ?(quiet_forks l Hq), ?(quiet_executors l Hq),
                 ?(quiet_transport l Hq), ?(quiet_fetched _ l Hq),
                 ?(quiet_dashboard l Hq), ?(quiet_homeAnswer l Hq))
  end.

Ltac observe :=
  cbn [result after emitted fst snd collectedPoints activeWorkers accounts];
  repeat (progress (cbn [count executors transport fetched dashboard homeAnswer
                         app isClose isMobileSession isMobileSearch isRefetch
                         isFork executorOf Bool.eqb Nat.add];
                    rewrite ?count_app, ?executors_app, ?transport_app,
                      ?fetched_app, ?dashboard_app, ?homeAnswer_app;
                    quieten)).

Ltac crank1 :=
  match goal with
  | |- context [prune ?g ?n ?h ?b] =>
      let r := fresh "r" in let l := fresh "l" in
      let E := fresh "E" in let Hq := fresh "Hq" in let Hr := fresh "Hr" in
      destruct (prune_spec g n h b) as (r & l & E & Hq & Hr);
      rewrite E; clear E; destruct Hr as [-> | [-> | [? ->]]]
  | |- context [match ?x with Returned _ => _ | Threw _ => _ end] =>
      destruct x eqn:?
  | |- context [negb ?x] => destruct x eqn:?
  | |- context [if ?x then _ else _] => destruct x eqn:?
  | |- context [match ?x with Some _ => _ | None => _ end] =>
      destruct x eqn:?
  end.

Ltac reduce :=
  cbv beta iota zeta delta
    [bind invoke ret log throw this setCollectedPoints setActiveWorkers
     setAccounts when lift spin processExit fork send
     collectedPoints activeWorkers accounts];
  cbn [app negb andb].

Ltac crank := reduce; repeat (crank1; reduce).

(** Reduce a statement about a run of a phase to its paths. *)
Ltac paths m :=
  pattern m;
  match goal with
  | |- ?P _ => let Q := fresh "Q" in set (Q := P); unfold Desktop, Mobile; crank; subst Q; cbv beta
  end.

(** C1. Session close: in a run of either phase [browser.close] is called
    exactly once when the phase returns normally, be it after the tasks or
    on the gated early exit, and never twice; when a fault or the pruning
    loop ends the run, it was not called at all, unless it is the call to
    [browser.close] itself that threw.  There is no cleanup on the fault
    paths. *)
Theorem session_close_discipline (p : SessionPhase) (account : Account) h b :
  match result (runPhase p account h b) with
  | Ok _ => count isClose (emitted (runPhase p account h b)) = 1%nat
  | Raise f =>
      count isClose (emitted (runPhase p account h b)) = 0%nat \/
      (count isClose (emitted (runPhase p account h b)) = 1%nat /\
       exists l, emitted (runPhase p account h b) = Called BrowserClose (Threw f) :: l)
  | Exit _ => False
  | Spin => count isClose (emitted (runPhase p account h b)) = 0%nat
  end.
Proof.
  destruct p; unfold runPhase.
  - paths (Desktop account h b); observe; auto;
      right; (split; [reflexivity | eexists; reflexivity]).
  - paths (Mobile account h b); observe; auto;
      right; (split; [reflexivity | eexists; reflexivity]).
Qed.

(** ** What the phases never do *)

Lemma Desktop_footprint account h b :
  transport (emitted (Desktop account h b)) = [] /\
  count isMobileSession (emitted (Desktop account h b)) = 0%nat /\
  (forall c, result (Desktop account h b) <> Exit c) /\
  activeWorkers (after (Desktop account h b)) = activeWorkers b /\
  accounts (after (Desktop account h b)) = accounts b.
Proof.
  paths (Desktop account h b); observe; repeat split; congruence.
Qed.

Lemma Mobile_footprint account h b :
  transport (emitted (Mobile account h b)) = [] /\
  count isMobileSession (emitted (Mobile account h b)) = 1%nat /\
  (forall c, result (Mobile account h b) <> Exit c) /\
  activeWorkers (after (Mobile account h b)) = activeWorkers b /\
  accounts (after (Mobile account h b)) = accounts b.
Proof.
  paths (Mobile account h b); observe; repeat split; congruence.
Qed.

(** A Desktop phase that returns has stored the figure it fetched. *)
Lemma Desktop_collects account h b :
  result (Desktop account h b) = Ok tt ->
  fetched false (emitted (Desktop account h b)) =
    Some (collectedPoints (after (Desktop account h b))).
Proof.
  paths (Desktop account h b); observe; intros; congruence.
Qed.

(** ** Points accounting *)

Ltac observe_points :=
  observe;
  repeat (progress (
    cbn [count isPointsFetch searchThrew sinceRefetch isRefetch isMobileSearch
         app Nat.add];
    rewrite ?count_app;
    repeat match goal with
    | Hq : quiet ?l |- context [count ?p ?l] =>
        rewrite (quiet_count p l ltac:(pruning_case) Hq)
    end)).


(** C4. The Desktop phase fetches the earnable points once it has the
    dashboard and stores the figure in [collectedPoints] (the field is left
    alone when the fetch did not return); a Desktop phase that returns has
    done so.  In the Mobile phase with the counter present, the points are
    fetched again, once, after the mobile search if there was one, unless
    that search threw, whether [doMobileSearch] is on or off; the figure
    decides: zero leaves [collectedPoints] as it was, any other figure is
    subtracted from it; a Mobile phase that returns has fetched and
    adjusted; without a second fetch the field is untouched. *)
Theorem points_accounting (account : Account) h b :
  (forall v, fetched false (emitted (Desktop account h b)) = Some v ->
     collectedPoints (after (Desktop account h b)) = v) /\
  (fetched false (emitted (Desktop account h b)) = None ->
     collectedPoints (after (Desktop account h b)) = collectedPoints b) /\
  (forall e, fetched true (emitted (Mobile account h b)) = Some e ->
     collectedPoints (after (Mobile account h b)) =
       if e =? 0 then collectedPoints b else collectedPoints b - e) /\
  (fetched true (emitted (Mobile account h b)) = None ->
     collectedPoints (after (Mobile account h b)) = collectedPoints b) /\
  (forall d, dashboard (emitted (Desktop account h b)) = Some d ->
     count isPointsFetch (emitted (Desktop account h b)) = 1%nat) /\
  (result (Desktop account h b) = Ok tt ->
     exists v, fetched false (emitted (Desktop account h b)) = Some v /\
               collectedPoints (after (Desktop account h b)) = v) /\
  (forall d counter,
     dashboard (emitted (Mobile account h b)) = Some d ->
     mobileSearch d = Some counter ->
     count searchThrew (emitted (Mobile account h b)) = 0%nat ->
     count isRefetch (emitted (Mobile account h b)) = 1%nat /\
     count isMobileSearch (sinceRefetch (emitted (Mobile account h b))) = 0%nat) /\
  (forall d counter,
     dashboard (emitted (Mobile account h b)) = Some d ->
     mobileSearch d = Some counter ->
     result (Mobile account h b) = Ok tt ->
     exists e, fetched true (emitted (Mobile account h b)) = Some e /\
               collectedPoints (after (Mobile account h b)) =
                 if e =? 0 then collectedPoints b else collectedPoints b - e).
Proof.
  split; [|split; [|split; [|split; [|split; [|split; [|split]]]]]].
  - paths (Desktop account h b); observe; intros; congruence.
  - paths (Desktop account h b); observe; intros; congruence.
  - paths (Mobile account h b); observe; intros e' He'; try discriminate;
      injection He' as <-;
      match goal with H : (_ =? 0) = _ |- _ => rewrite H end; reflexivity.
  - paths (Mobile account h b); observe; intros; congruence.
  - paths (Desktop account h b); observe_points; intros d' Hd;
      try discriminate; reflexivity.
  - paths (Desktop account h b); observe_points; intros Hr;
      try discriminate; eexists; split; reflexivity.
  - paths (Mobile account h b); observe_points; intros d' counter Hd Hm Hs;
      try discriminate; try (injection Hd as <-; congruence);
      split; reflexivity.
  - paths (Mobile account h b); observe_points; intros d' counter Hd Hm Hr;
      try discriminate; try (injection Hd as <-; congruence);
      eexists; (split; [reflexivity|]);
      match goal with H : (_ =? 0) = _ |- _ => rewrite H end; reflexivity.
Qed.

(** ** Gating inside the phases *)

(** C7. Once the Desktop phase has fetched the earnable points [v]: if
    [runOnZeroPoints] is off and [v] is zero, no task executor is invoked
    and the two log lines are followed at once by [browser.close];
    otherwise the executors invoked so far are a prefix of the enabled ones
    in the order daily set, more promotions, punch cards, desktop search,
    and all of the enabled ones when the phase returns. *)
Theorem desktop_gating (account : Account) h b v :
  fetched false (emitted (Desktop account h b)) = Some v ->
  if shouldSkip (runOnZeroPoints cfg) v then
    executors (emitted (Desktop account h b)) = [] /\
    count isClose (emitted (Desktop account h b)) = 1%nat /\
    exists o l,
      emitted (Desktop account h b) =
        Called BrowserClose o :: Logged "MAIN" Info :: Logged "MAIN-POINTS" Info ::
        Called (GetEarnablePoints false) (Returned (VInt v)) :: l
  else
    (exists rest,
       enabledExecutors (workers cfg) =
         executors (emitted (Desktop account h b)) ++ rest) /\
    (result (Desktop account h b) = Ok tt ->
       executors (emitted (Desktop account h b)) = enabledExecutors (workers cfg)).
Proof.
  unfold shouldSkip, enabledExecutors.
  paths (Desktop account h b); observe; intros Hv; try discriminate;
    injection Hv as <-;
    repeat match goal with H : _ = _ :> bool |- _ => rewrite H; clear H end;
    cbn [negb andb app];
    try (split; [reflexivity | split; [reflexivity | do 2 eexists; reflexivity]]);
    (split; [eexists; cbn [app]; reflexivity | intros; congruence]).
Qed.

(** C8. A Mobile phase whose dashboard snapshot has no mobile-search
    counter logs, calls [browser.close] and ends with what that call does
    (it returns when the call returns); the mobile search executor is not
    invoked and [collectedPoints] is not touched. *)
Theorem mobile_skip_without_counter (account : Account) h b d :
  dashboard (emitted (Mobile account h b)) = Some d ->
  mobileSearch d = None ->
  count isMobileSearch (emitted (Mobile account h b)) = 0%nat /\
  count isClose (emitted (Mobile account h b)) = 1%nat /\
  after (Mobile account h b) = b /\
  exists o l,
    emitted (Mobile account h b) =
      Called BrowserClose o :: Logged "MAIN" Info ::
      Called GetDashboardData (Returned (VData d)) :: l /\
    result (Mobile account h b) =
      match o with Returned _ => Ok tt | Threw f => Raise f end.
Proof.
  paths (Mobile account h b); observe; intros Hd Hm; try discriminate;
    injection Hd as <-; try congruence;
    repeat (split; [reflexivity|]);
    do 2 eexists; (split; [reflexivity|]);
    repeat match goal with u : unit |- _ => destruct u end; reflexivity.
Qed.

(** C9. With the counter present, only the mobile search executor depends
    on [doMobileSearch]: it is invoked once when the flag is on and not at
    all when it is off.  With the flag off the earnable points are fetched
    again all the same, exactly once, and the figure that fetch returns is
    used to adjust [collectedPoints]. *)
Theorem mobile_accounting_not_flag_gated (account : Account) h b d counter :
  dashboard (emitted (Mobile account h b)) = Some d ->
  mobileSearch d = Some counter ->
  count isMobileSearch (emitted (Mobile account h b)) =
    (if doMobileSearch (workers cfg) then 1 else 0)%nat /\
  (doMobileSearch (workers cfg) = false ->
     count isRefetch (emitted (Mobile account h b)) = 1%nat /\
     forall e, fetched true (emitted (Mobile account h b)) = Some e ->
       collectedPoints (after (Mobile account h b)) =
         if e =? 0 then collectedPoints b else collectedPoints b - e).
Proof.
  paths (Mobile account h b); observe; intros Hd Hm; try discriminate;
    injection Hd as <-; try congruence;
    repeat match goal with H : doMobileSearch _ = _ |- _ => rewrite H end;
    (split; [reflexivity|]); intros Hf; try discriminate;
    (split; [reflexivity|]); intros e' He'; try discriminate;
    injection He' as <-;
    match goal with H : (_ =? 0) = _ |- _ => rewrite H end; reflexivity.
Qed.

(** ** The sequencer *)

Ltac tidy := cbn [app]; rewrite ?app_nil_r, <- ?app_assoc; cbn [app].

(** The loop body of [runTasks] in terms of the two phases. *)
Lemma runAccount_eq (account : Account) h b :
  runAccount account h b =
  match Desktop account (Logged "MAIN-WORKER" Info :: h) b with
  | (Ok _, b1, l1) =>
      if shouldSkip (runOnZeroPoints cfg) (collectedPoints b1) then
        (Ok tt, b1, l1 ++ [Logged "MAIN-WORKER" Info])
      else
        match Mobile account (l1 ++ Logged "MAIN-WORKER" Info :: h) b1 with
        | (Ok _, b2, l2) =>
            (Ok tt, b2,
             Logged "MAIN-WORKER" Info :: l2 ++ l1 ++ [Logged "MAIN-WORKER" Info])
        | (Raise f, b2, l2) => (Raise f, b2, l2 ++ l1 ++ [Logged "MAIN-WORKER" Info])
        | (Exit c, b2, l2) => (Exit c, b2, l2 ++ l1 ++ [Logged "MAIN-WORKER" Info])
        | (Spin, b2, l2) => (Spin, b2, l2 ++ l1 ++ [Logged "MAIN-WORKER" Info])
        end
  | (Raise f, b1, l1) => (Raise f, b1, l1 ++ [Logged "MAIN-WORKER" Info])
  | (Exit c, b1, l1) => (Exit c, b1, l1 ++ [Logged "MAIN-WORKER" Info])
  | (Spin, b1, l1) => (Spin, b1, l1 ++ [Logged "MAIN-WORKER" Info])
  end.
Proof.
  unfold runAccount, shouldSkip.
  cbv beta iota zeta delta [bind log this ret]. cbn [app].
  destruct (Desktop account (Logged "MAIN-WORKER" Info :: h) b) as [[[[]|f|c|] b1] l1];
    try reflexivity.
  destruct (negb (runOnZeroPoints cfg) && (collectedPoints b1 =? 0)).
  - now tidy.
  - destruct (Mobile account (l1 ++ Logged "MAIN-WORKER" Info :: h) b1)
      as [[[[]|f|c|] b2] l2]; now tidy.
Qed.

Lemma forAccounts_app (pre rest : list Account) :
  forall h b b0 l0 r b2 l2,
    forAccounts pre h b = (Ok tt, b0, l0) ->
    forAccounts rest (l0 ++ h) b0 = (r, b2, l2) ->
    forAccounts (pre ++ rest) h b = (r, b2, l2 ++ l0).
Proof.
  induction pre as [|a pre IH]; intros h b b0 l0 r b2 l2 E E'.
  - cbn in E. injection E as <- <-. cbn [app] in *.
    now rewrite E', app_nil_r.
  - cbn [app forAccounts] in *. unfold bind in *.
    destruct (runAccount a h b) as [[[[]|f|c|] b1] l1]; try discriminate.
    destruct (forAccounts pre (l1 ++ h) b1) as [[r' b'] l'] eqn:E2.
    injection E as -> -> <-.
    rewrite <- app_assoc in E'.
    rewrite (IH _ _ _ _ _ _ _ E2 E').
    now rewrite app_assoc.
Qed.

(** A fault of the loop body ends the loop, and a fault of the loop ends
    [runTasks]: there is no handler on the way. *)
Lemma forAccounts_fault (account : Account) (rest : list Account) h b f b1 l1 :
  runAccount account h b = (Raise f, b1, l1) ->
  forAccounts (account :: rest) h b = (Raise f, b1, l1).
Proof. intros E. cbn [forAccounts]. unfold bind. now rewrite E. Qed.

Lemma runTasks_fault (chunk : list Account) h b f b1 l1 :
  forAccounts chunk h b = (Raise f, b1, l1) ->
  runTasks chunk h b = (Raise f, b1, l1).
Proof. intros E. unfold runTasks, bind. now rewrite E. Qed.

Lemma runAccount_transport (account : Account) h b :
  transport (emitted (runAccount account h b)) = [] /\
  (forall c, result (runAccount account h b) <> Exit c).
Proof.
  rewrite runAccount_eq.
  pose proof (Desktop_footprint account (Logged "MAIN-WORKER" Info :: h) b) as (Ht & _ & Hx & _).
  destruct (Desktop account (Logged "MAIN-WORKER" Info :: h) b) as [[[[]|f|c|] b1] l1];
    cbn [result after emitted fst snd] in *;
    try (split; [rewrite transport_app, Ht; reflexivity | congruence]).
  destruct (shouldSkip _ _).
  { cbn [result emitted fst snd].
    split; [rewrite transport_app, Ht; reflexivity | congruence]. }
  pose proof (Mobile_footprint account (l1 ++ Logged "MAIN-WORKER" Info :: h) b1) as (Ht' & _ & Hx' & _).
  destruct (Mobile account (l1 ++ Logged "MAIN-WORKER" Info :: h) b1) as [[[[]|f|c|] b2] l2];
    cbn [result after emitted fst snd transport] in *;
    rewrite ?transport_app, ?Ht, ?Ht'; (split; [reflexivity|]); congruence.
Qed.

Lemma forAccounts_transport (chunk : list Account) :
  forall h b,
    transport (emitted (forAccounts chunk h b)) = [] /\
    (forall c, result (forAccounts chunk h b) <> Exit c).
Proof.
  induction chunk as [|a chunk IH]; intros h b; cbn [forAccounts].
  - cbn. split; [reflexivity | congruence].
  - unfold bind.
    pose proof (runAccount_transport a h b) as (Ht & Hx).
    destruct (runAccount a h b) as [[[[]|f|c|] b1] l1];
      cbn [result after emitted fst snd] in *;
      try (split; [assumption | congruence]).
    pose proof (IH (l1 ++ h) b1) as (Ht' & Hx').
    destruct (forAccounts chunk (l1 ++ h) b1) as [[r b2] l2].
    cbn [result after emitted fst snd] in *.
    rewrite transport_app, Ht, Ht'. split; [reflexivity | assumption].
Qed.

(** [runTasks] forks nothing, and ends the process when its loop returns. *)
Lemma runTasks_transport (chunk : list Account) h b :
  transport (emitted (runTasks chunk h b)) = [].
Proof.
  unfold runTasks, bind.
  pose proof (forAccounts_transport chunk h b) as (Ht & _).
  destruct (forAccounts chunk h b) as [[[[]|f|c|] b1] l1];
    cbn [result after emitted fst snd log processExit app] in *; try assumption.
  cbn [transport]. now rewrite Ht.
Qed.

(** C3. For an account whose Desktop phase returned, [collectedPoints]
    holds the figure that phase fetched, and the Mobile phase is entered
    (once) exactly when [shouldSkip] applied to [runOnZeroPoints] and that
    figure is false; when it is true the loop body is over right after the
    Desktop phase, so the loop goes on with the next account. *)
Theorem mobile_gate (account : Account) h b :
  result (Desktop account (Logged "MAIN-WORKER" Info :: h) b) = Ok tt ->
  fetched false (emitted (Desktop account (Logged "MAIN-WORKER" Info :: h) b)) =
    Some (collectedPoints (after (Desktop account (Logged "MAIN-WORKER" Info :: h) b))) /\
  count isMobileSession (emitted (runAccount account h b)) =
    (if shouldSkip (runOnZeroPoints cfg)
          (collectedPoints (after (Desktop account (Logged "MAIN-WORKER" Info :: h) b)))
     then 0 else 1)%nat /\
  (shouldSkip (runOnZeroPoints cfg)
     (collectedPoints (after (Desktop account (Logged "MAIN-WORKER" Info :: h) b))) = true ->
   runAccount account h b =
     (Ok tt, after (Desktop account (Logged "MAIN-WORKER" Info :: h) b),
      emitted (Desktop account (Logged "MAIN-WORKER" Info :: h) b) ++
      [Logged "MAIN-WORKER" Info])).
Proof.
  intros Hok. split; [now apply Desktop_collects|].
  rewrite runAccount_eq.
  pose proof (Desktop_footprint account (Logged "MAIN-WORKER" Info :: h) b) as (_ & Hm & _).
  destruct (Desktop account (Logged "MAIN-WORKER" Info :: h) b) as [[r b1] l1].
  cbn [result after emitted fst snd] in *. subst r.
  destruct (shouldSkip (runOnZeroPoints cfg) (collectedPoints b1)).
  - cbn [emitted snd]. rewrite count_app, Hm. split; reflexivity.
  - split; [|discriminate].
    pose proof (Mobile_footprint account (l1 ++ Logged "MAIN-WORKER" Info :: h) b1) as (_ & Hm' & _).
    destruct (Mobile account (l1 ++ Logged "MAIN-WORKER" Info :: h) b1) as [[[[]|f|c|] b2] l2];
      cbn [result after emitted fst snd count isMobileSession] in *;
      rewrite !count_app, Hm, Hm'; reflexivity.
Qed.

(** C6. No fault of a phase is caught by the sequencer.  After the
    accounts [pre] have been processed, a Desktop phase in which [goHome]
    answers [false] raises [DashboardUnreachable]; whatever fault the
    Desktop phase raises, and whatever fault the Mobile phase raises when
    it is entered, is the result of [runTasks] on the whole chunk, the bot
    is left as the faulting phase left it, and the events end with those
    of that phase: nothing is done for the accounts [post]. *)
Theorem fault_aborts_lane (pre post : list Account) (account : Account) h b b0 l0 f :
  forAccounts pre h b = (Ok tt, b0, l0) ->
  (homeAnswer (emitted (Desktop account (Logged "MAIN-WORKER" Info :: l0 ++ h) b0)) = Some false ->
   result (Desktop account (Logged "MAIN-WORKER" Info :: l0 ++ h) b0) = Raise DashboardUnreachable) /\
  (result (Desktop account (Logged "MAIN-WORKER" Info :: l0 ++ h) b0) = Raise f ->
   runTasks (pre ++ account :: post) h b =
     (Raise f,
      after (Desktop account (Logged "MAIN-WORKER" Info :: l0 ++ h) b0),
      emitted (Desktop account (Logged "MAIN-WORKER" Info :: l0 ++ h) b0) ++
      Logged "MAIN-WORKER" Info :: l0)) /\
  (forall b1 l1,
     Desktop account (Logged "MAIN-WORKER" Info :: l0 ++ h) b0 = (Ok tt, b1, l1) ->
     shouldSkip (runOnZeroPoints cfg) (collectedPoints b1) = false ->
     result (Mobile account (l1 ++ Logged "MAIN-WORKER" Info :: l0 ++ h) b1) = Raise f ->
     runTasks (pre ++ account :: post) h b =
       (Raise f,
        after (Mobile account (l1 ++ Logged "MAIN-WORKER" Info :: l0 ++ h) b1),
        emitted (Mobile account (l1 ++ Logged "MAIN-WORKER" Info :: l0 ++ h) b1) ++
        l1 ++ Logged "MAIN-WORKER" Info :: l0)).
Proof.
  intros Hpre. split; [|split].
  - paths (Desktop account (Logged "MAIN-WORKER" Info :: l0 ++ h) b0); observe;
      intros; congruence.
  - intros Hd. apply runTasks_fault.
    replace (emitted (Desktop account (Logged "MAIN-WORKER" Info :: l0 ++ h) b0) ++
             Logged "MAIN-WORKER" Info :: l0)
      with ((emitted (Desktop account (Logged "MAIN-WORKER" Info :: l0 ++ h) b0) ++
             [Logged "MAIN-WORKER" Info]) ++ l0) by now tidy.
    apply (forAccounts_app pre (account :: post) h b b0 l0); [exact Hpre|].
    apply forAccounts_fault. rewrite runAccount_eq.
    destruct (Desktop account (Logged "MAIN-WORKER" Info :: l0 ++ h) b0) as [[r b1] l1].
    cbn [result after emitted fst snd] in *. now subst r.
  - intros b1 l1 Hd Hs Hm. apply runTasks_fault.
    replace (emitted (Mobile account (l1 ++ Logged "MAIN-WORKER" Info :: l0 ++ h) b1) ++
             l1 ++ Logged "MAIN-WORKER" Info :: l0)
      with ((emitted (Mobile account (l1 ++ Logged "MAIN-WORKER" Info :: l0 ++ h) b1) ++
             l1 ++ [Logged "MAIN-WORKER" Info]) ++ l0) by now tidy.
    apply (forAccounts_app pre (account :: post) h b b0 l0); [exact Hpre|].
    apply forAccounts_fault. rewrite runAccount_eq, Hd, Hs.
    destruct (Mobile account (l1 ++ Logged "MAIN-WORKER" Info :: l0 ++ h) b1) as [[r b2] l2].
    cbn [result after emitted fst snd] in *. now subst r.
Qed.

(** ** The coordinator *)

Lemma forkAll_spec (chunks : list (list Account)) :
  forall i h b, forkAll i chunks h b = (Ok tt, b, rev (fanOut i chunks)).
Proof.
  induction chunks as [|c chunks IH]; intros i h b; cbn [forkAll fanOut].
  - reflexivity.
  - cbv beta iota zeta delta [bind fork send]. now rewrite IH.
Qed.

Lemma fanOut_observed (chunks : list (list Account)) :
  forall i,
    transport (rev (fanOut i chunks)) = fanOut i chunks /\
    count isFork (rev (fanOut i chunks)) = List.length chunks /\
    count isCall (rev (fanOut i chunks)) = 0%nat.
Proof.
  induction chunks as [|c chunks IH]; intros i; cbn [fanOut rev].
  - repeat split.
  - destruct (IH (S i)) as (Ht & Hf & Hc).
    rewrite !transport_app, !count_app, Ht, Hf, Hc. cbn.
    repeat split; lia.
Qed.

(** What the primary has done when [run] returns. *)
Lemma main_primary h (chunks : list (list Account)) :
  1 < clusters cfg ->
  chunkArray utils loadAccounts (clusters cfg) = Returned chunks ->
  main true h newBot =
    (Ok tt, mkBot 0 (clusters cfg) loadAccounts,
     rev (fanOut 0 chunks) ++ [Logged "MAIN-PRIMARY" Info; Logged "MAIN" Info]).
Proof.
  intros Hn Hc. apply Z.ltb_lt in Hn.
  unfold main, run, runMaster, initialize, newBot. rewrite Hn.
  cbv beta iota zeta delta [bind log this lift setAccounts accounts
                            collectedPoints activeWorkers].
  rewrite Hc, forkAll_spec. now tidy.
Qed.

(** Exit notifications count the live lanes down; the one that brings the
    count to zero ends the process with code 0. *)
Lemma deliver_spec (signals : list (nat * Z)) :
  forall h b,
    0 < activeWorkers b ->
    result (deliver signals h b) =
      (if (Z.to_nat (activeWorkers b) <=? List.length signals)%nat
       then Exit 0 else Ok tt) /\
    activeWorkers (after (deliver signals h b)) =
      activeWorkers b -
      Z.of_nat (Nat.min (Z.to_nat (activeWorkers b)) (List.length signals)) /\
    count isFork (emitted (deliver signals h b)) = 0%nat.
Proof.
  induction signals as [|[worker code] signals IH]; intros h [cp aw acc] Hb;
    cbn [activeWorkers] in *.
  - cbn. destruct (Z.to_nat aw) eqn:E; [lia|].
    cbn. repeat split. lia.
  - cbn [deliver List.length]. unfold onExit.
    cbv beta iota zeta delta [bind log this ret setActiveWorkers].
    cbn [app activeWorkers collectedPoints accounts].
    destruct (aw - 1 =? 0) eqn:E.
    + apply Z.eqb_eq in E.
      cbv beta iota zeta delta [log processExit].
      cbn [result after emitted fst snd activeWorkers app count isFork].
      replace (Z.to_nat aw) with 1%nat by lia.
      cbn. repeat split; lia.
    + apply Z.eqb_neq in E. cbn [app].
      assert (Hb' : 0 < activeWorkers (mkBot cp (aw - 1) acc)) by (cbn; lia).
      specialize (IH (Logged "MAIN-WORKER" Warn :: h) (mkBot cp (aw - 1) acc) Hb').
      destruct (deliver signals (Logged "MAIN-WORKER" Warn :: h) (mkBot cp (aw - 1) acc))
        as [[r b2] l2].
      cbn [result after emitted fst snd activeWorkers] in *.
      destruct IH as (Hr & Ha & Hf).
      rewrite !count_app, Hf. cbn [count isFork].
      split; [|split; [|reflexivity]].
      * rewrite Hr.
        destruct (Nat.leb_spec (Z.to_nat (aw - 1)) (List.length signals));
        destruct (Nat.leb_spec (Z.to_nat aw) (S (List.length signals)));
        try reflexivity; lia.
      * rewrite Ha. lia.
Qed.

Lemma deliver_keeps (signals : list (nat * Z)) :
  forall h b,
    collectedPoints (after (deliver signals h b)) = collectedPoints b /\
    accounts (after (deliver signals h b)) = accounts b.
Proof.
  induction signals as [|[worker code] signals IH]; intros h [cp aw acc].
  - split; reflexivity.
  - cbn [deliver]. unfold onExit.
    cbv beta iota zeta delta [bind log this ret setActiveWorkers processExit].
    cbn [app activeWorkers collectedPoints accounts].
    destruct (aw - 1 =? 0); [split; reflexivity|].
    specialize (IH (Logged "MAIN-WORKER" Warn :: h) (mkBot cp (aw - 1) acc)).
    destruct (deliver signals _ _) as [[r b2] l2].
    cbn [after fst snd collectedPoints accounts] in *. exact IH.
Qed.

(** The coordinator from start to the last notification handed to it. *)
Lemma coordinator_spec (signals : list (nat * Z)) h (chunks : list (list Account)) :
  1 < clusters cfg ->
  chunkArray utils loadAccounts (clusters cfg) = Returned chunks ->
  result (coordinator signals h newBot) =
    (if (Z.to_nat (clusters cfg) <=? List.length signals)%nat then Exit 0 else Ok tt) /\
  after (coordinator signals h newBot) =
    mkBot 0
      (clusters cfg - Z.of_nat (Nat.min (Z.to_nat (clusters cfg)) (List.length signals)))
      loadAccounts /\
  count isFork (emitted (coordinator signals h newBot)) = List.length chunks.
Proof.
  intros Hn Hc.
  unfold coordinator, bind. rewrite (main_primary h chunks Hn Hc).
  set (b := mkBot 0 (clusters cfg) loadAccounts).
  set (h' := (rev (fanOut 0 chunks) ++ _) ++ h).
  assert (Hb : 0 < activeWorkers b) by (cbn; lia).
  destruct (deliver_spec signals h' b Hb) as (Hr & Ha & Hf).
  destruct (deliver_keeps signals h' b) as (Hcp & Hacc).
  destruct (deliver signals h' b) as [[r [cp2 aw2 acc2]] l2].
  cbn [result after emitted fst snd activeWorkers collectedPoints accounts b] in *.
  destruct (fanOut_observed chunks 0%nat) as (_ & Hforks & _).
  rewrite !count_app, Hf, Hforks. cbn [count isFork].
  subst. repeat split. lia.
Qed.

(** C5. With more than one cluster configured and a partitioner that
    yields one chunk per cluster, the primary forks exactly that many
    lanes, and, whatever lanes the exit notifications come from, with
    whatever codes and in whatever order: it ends the process, with code
    0, exactly when as many notifications have arrived as there are lanes,
    which is exactly when [activeWorkers] has come down to zero; with
    fewer notifications it is still running and [activeWorkers] is the
    number of lanes not yet heard of.  Handing over the same notifications
    in another order changes neither the result nor the bot. *)
Theorem coordinator_liveness (signals : list (nat * Z)) h (chunks : list (list Account)) :
  1 < clusters cfg ->
  chunkArray utils loadAccounts (clusters cfg) = Returned chunks ->
  List.length chunks = Z.to_nat (clusters cfg) ->
  count isFork (emitted (coordinator signals h newBot)) = List.length chunks /\
  (result (coordinator signals h newBot) = Exit 0 <->
     (List.length chunks <= List.length signals)%nat) /\
  (result (coordinator signals h newBot) = Exit 0 <->
     activeWorkers (after (coordinator signals h newBot)) = 0) /\
  (result (coordinator signals h newBot) = Exit 0 \/
   result (coordinator signals h newBot) = Ok tt) /\
  ((List.length signals < List.length chunks)%nat ->
     result (coordinator signals h newBot) = Ok tt /\
     activeWorkers (after (coordinator signals h newBot)) =
       Z.of_nat (List.length chunks) - Z.of_nat (List.length signals)) /\
  (forall signals', Permutation signals signals' ->
     result (coordinator signals' h newBot) = result (coordinator signals h newBot) /\
     after (coordinator signals' h newBot) = after (coordinator signals h newBot)).
Proof.
  intros Hn Hc Hlen.
  destruct (coordinator_spec signals h chunks Hn Hc) as (Hr & Ha & Hf).
  split; [exact Hf|].
  assert (Hperm : forall signals', Permutation signals signals' ->
            result (coordinator signals' h newBot) = result (coordinator signals h newBot) /\
            after (coordinator signals' h newBot) = after (coordinator signals h newBot)).
  { intros signals' Hp.
    destruct (coordinator_spec signals' h chunks Hn Hc) as (Hr' & Ha' & _).
    rewrite Hr, Hr', Ha, Ha', (Permutation_length Hp). split; reflexivity. }
  repeat split; intros; try solve [eapply Hperm; eassumption];
    rewrite ?Hr, ?Ha, <- ?Hlen in *; cbn [activeWorkers] in *;
    destruct (Nat.leb_spec (List.length chunks) (List.length signals));
    try lia; try discriminate; auto.
Qed.


(** ** More on the phases *)

Lemma desktopMails_app l1 l2 : desktopMails (l1 ++ l2) = desktopMails l2 ++ desktopMails l1.
Proof.
  induction l1 as [|e l1 IH]; simpl.
  - now rewrite app_nil_r.
  - now rewrite IH, app_assoc.
Qed.

Lemma ranks_app l1 l2 : ranks (l1 ++ l2) = ranks l2 ++ ranks l1.
Proof.
  induction l1 as [|e l1 IH]; simpl.
  - now rewrite app_nil_r.
  - now rewrite IH, app_assoc.
Qed.

Lemma quiet_desktopMails l : quiet l -> desktopMails l = [].
Proof.
  intros Hq. induction Hq as [|e l He _ IH]; simpl; [reflexivity|].
  rewrite IH. destruct e as [[] ?| | |]; simpl in *; congruence.
Qed.

Lemma quiet_ranks l : quiet l -> ranks l = [].
Proof.
  intros Hq. induction Hq as [|e l He _ IH]; simpl; [reflexivity|].
  rewrite IH. destruct e as [[] ?| | |]; simpl in *; congruence.
Qed.

Lemma quiet_belongs account mobile l : quiet l -> Forall (belongs account mobile) l.
Proof.
  intros Hq. induction Hq as [|e l He _ IH]; constructor; [|exact IH].
  destruct e as [[] ?| | |]; simpl in *; congruence || exact I.
Qed.

(** The loop with the faults it meets made explicit: at most one call
    throws, and it is the last one. *)
Lemma prune_trace gas n h b :
  exists r l, prune gas n h b = (r, b, l) /\ quiet l /\
    (((r = Ok tt \/ r = Spin) /\ count isThrow l = 0%nat) \/
     (exists f c l', r = Raise f /\ l = Called c (Threw f) :: l' /\
                     quiet l' /\ count isThrow l' = 0%nat)).
Proof.
  revert n h. induction gas as [|gas IH]; intros n h; simpl.
  - destruct (2 <? n)%nat.
    + exists Spin, []. repeat split; [constructor | left; auto].
    + exists (Ok tt), []. repeat split; [constructor | left; auto].
  - destruct (2 <? n)%nat.
    2:{ exists (Ok tt), []. repeat split; [constructor | left; auto]. }
    unfold bind, invoke.
    destruct (pageClose env h) as [[]|f].
    2:{ exists (Raise f), [Called PageClose (Threw f)].
        repeat split; [repeat constructor | right].
        exists f, PageClose, []. repeat split. constructor. }
    simpl. destruct (pages env _) as [n'|f].
    2:{ exists (Raise f), [Called Pages (Threw f); Called PageClose (Returned VUnit)].
        repeat split; [repeat constructor | right].
        exists f, Pages, [Called PageClose (Returned VUnit)].
        repeat split. repeat constructor. }
    simpl.
    destruct (IH n' (Called Pages (Returned (VNat n')) ::
                     Called PageClose (Returned VUnit) :: h))
      as (r & l & E & Hq & Hr).
    rewrite E.
    exists r, ((l ++ [Called Pages (Returned (VNat n'))]) ++ [Called PageClose (Returned VUnit)]).
    split; [|split].
    + destruct Hr as [[[-> | ->] _] | (f & c & l' & -> & _)]; reflexivity.
    + unfold quiet. rewrite !Forall_app. repeat split; try assumption; repeat constructor.
    + destruct Hr as [[Hr Ht] | (f & c & l' & -> & -> & Hq' & Ht)].
      * left. split; [exact Hr|]. rewrite !count_app, Ht. reflexivity.
      * right. exists f, c, ((l' ++ [Called Pages (Returned (VNat n'))]) ++
                             [Called PageClose (Returned VUnit)]).
        repeat split.
        -- unfold quiet. rewrite !Forall_app. repeat split; try assumption; repeat constructor.
        -- rewrite !count_app, Ht. reflexivity.
Qed.

(** X1. When the pruning loop returns, either there were at most two pages
    to begin with and it did nothing, or the last thing it did was to ask
    for the pages and be told of at most two; it never closes more pages
    than it has iterations. *)
Theorem prune_leaves_two gas n h b :
  result (prune gas n h b) = Ok tt ->
  (count isPageClose (emitted (prune gas n h b)) <= gas)%nat /\
  (((n <= 2)%nat /\ emitted (prune gas n h b) = []) \/
   ((2 < n)%nat /\
    exists m l, emitted (prune gas n h b) = Called Pages (Returned (VNat m)) :: l /\
                (m <= 2)%nat)).
Proof.
  revert n h. induction gas as [|gas IH]; intros n h; simpl;
    destruct (Nat.ltb_spec 2 n) as [Hn|Hn].
  - discriminate.
  - intros _. split; [simpl; lia | left; split; [lia | reflexivity]].
  - unfold bind, invoke.
    destruct (pageClose env h) as [[]|f]; [|discriminate].
    simpl. destruct (pages env _) as [n'|f]; [|discriminate].
    simpl.
    specialize (IH n' (Called Pages (Returned (VNat n')) ::
                       Called PageClose (Returned VUnit) :: h)).
    destruct (prune gas n' _ b) as [[r b'] l].
    cbn [result emitted fst snd] in *.
    intros Hr. destruct r; try discriminate.
    destruct (IH Hr) as (Hc & Hshape).
    split.
    + rewrite !count_app. cbn. lia.
    + right. split; [exact Hn|].
      destruct Hshape as [(Hn' & ->) | (_ & m & l0 & -> & Hm)].
      * exists n', [Called PageClose (Returned VUnit)]. split; [reflexivity | exact Hn'].
      * eexists m, _. split; [reflexivity | exact Hm].
  - intros _. split; [simpl; lia | left; split; [lia | reflexivity]].
Qed.

(** With a provider that starts from [k] pages, never fails and drops one
    page for every page closed, the loop ends as soon as it has the
    iterations for the extra pages, having closed exactly those. *)
Lemma prune_honest (k : nat) :
  (forall h, pageClose env h = Returned tt) ->
  (forall h, pages env h = Returned (openPages k h)) ->
  forall gas n h b,
    n = openPages k h -> (n - 2 <= gas)%nat ->
    exists l, prune gas n h b = (Ok tt, b, l) /\ quiet l /\
              count isPageClose l = (n - 2)%nat.
Proof.
  intros Hc Hp. induction gas as [|gas IH]; intros n h b Hn Hgas; simpl;
    destruct (Nat.ltb_spec 2 n) as [Hlt|Hle]; try lia.
  - exists []. repeat split; [constructor | simpl; lia].
  - unfold bind, invoke. rewrite Hc. cbn [app]. rewrite Hp. cbn [app].
    set (h' := Called Pages _ :: Called PageClose _ :: h).
    assert (Hn' : openPages k (Called PageClose (Returned VUnit) :: h) = openPages k h').
    { reflexivity. }
    assert (Hstep : openPages k h' = (n - 1)%nat).
    { subst n h'. unfold openPages. cbn [count]. lia. }
    destruct (IH (openPages k (Called PageClose (Returned VUnit) :: h)) h' b Hn'
                ltac:(rewrite Hn', Hstep; lia)) as (l & E & Hq & Hcount).
    rewrite E. eexists. split; [reflexivity|]. split.
    + unfold quiet. rewrite !Forall_app. repeat split; try assumption; repeat constructor.
    + rewrite !count_app, Hcount, Hn', Hstep. cbn. lia.
  - exists []. repeat split; [constructor | simpl; lia].
Qed.

(** Symbolic execution again, with the treatment of the loop and a step to
    try first left open. *)
Ltac crank1_by pre pr :=
  first
  [ pre
  | match goal with
    | |- context [prune ?g ?n ?h ?b] => pr g n h b
    | |- context [match ?x with Returned _ => _ | Threw _ => _ end] =>
        destruct x eqn:?
    | |- context [negb ?x] => destruct x eqn:?
    | |- context [if ?x then _ else _] => destruct x eqn:?
    | |- context [match ?x with Some _ => _ | None => _ end] =>
        destruct x eqn:?
    end ].

Ltac paths_by pre pr m :=
  pattern m;
  match goal with
  | |- ?P _ =>
      let Q := fresh "Q" in
      set (Q := P); unfold Desktop, Mobile;
      reduce; repeat (crank1_by pre pr; reduce);
      subst Q; cbv beta
  end.

Ltac traced g n h b :=
  let r := fresh "r" in let l := fresh "l" in let l' := fresh "l" in
  let E := fresh "E" in let Hq := fresh "Hq" in let Ht := fresh "Ht" in
  let f := fresh "f" in let c := fresh "c" in let Hq' := fresh "Hq" in
  destruct (prune_trace g n h b)
    as (r & l & E & Hq & [[[-> | ->] Ht] | (f & c & l' & -> & -> & Hq' & Ht)]);
  rewrite E; clear E;
  try match goal with
      | Hp : quiet (Called ?k ?o :: _) |- _ =>
          let Hk := fresh "Hk" in
          assert (Hk : isPruning (Called k o) = true) by (inversion Hp; assumption);
          clear Hp; destruct k; try discriminate Hk; clear Hk
      end.

Ltac observe' :=
  cbn [result after emitted fst snd collectedPoints activeWorkers accounts];
  repeat (progress (
    cbn [count executors transport fetched dashboard homeAnswer desktopMails
         ranks rank app isClose isMobileSession isMobileSearch isRefetch isFork
         isThrow isOpened isPageClose isDashboardFetch isSession executorOf
         Bool.eqb Nat.add];
    rewrite ?count_app, ?executors_app, ?transport_app, ?fetched_app,
      ?dashboard_app, ?homeAnswer_app, ?desktopMails_app, ?ranks_app;
    repeat match goal with
    | H : count ?p ?l = _ |- context [count ?p ?l] => rewrite H
    | Hq : quiet ?l |- context [count ?p ?l] =>
        rewrite (quiet_count p l ltac:(pruning_case) Hq)
    | Hq : quiet ?l |- context [desktopMails ?l] => rewrite (quiet_desktopMails l Hq)
    | Hq : quiet ?l |- context [ranks ?l] => rewrite (quiet_ranks l Hq)
    | Hq : quiet ?l |- context [homeAnswer ?l] => rewrite (quiet_homeAnswer l Hq)
    end)).

(** X2. A phase stops at the first fault: when it returns no call has
    thrown; when it raises [f], either the newest event is the call that
    threw [f] and no earlier call threw, or it is the Desktop phase
    throwing [DashboardUnreachable] itself, right after [goHome] answered
    [false] and an error log, with no call having thrown; a phase never
    ends the process. *)
Theorem faults_escape_at_once (p : SessionPhase) (account : Account) h b :
  match result (runPhase p account h b) with
  | Ok _ => count isThrow (emitted (runPhase p account h b)) = 0%nat
  | Raise f =>
      (exists c l,
         emitted (runPhase p account h b) = Called c (Threw f) :: l /\
         count isThrow l = 0%nat) \/
      (p = DesktopPhase /\ f = DashboardUnreachable /\
       count isThrow (emitted (runPhase p account h b)) = 0%nat /\
       exists l,
         emitted (runPhase p account h b) =
           Logged "MAIN" Error :: Called GoHome (Returned (VBool false)) :: l)
  | Exit _ => False
  | Spin => count isThrow (emitted (runPhase p account h b)) = 0%nat
  end.
Proof.
  destruct p; unfold runPhase.
  - paths_by fail traced (Desktop account h b); observe'; try reflexivity;
      try (left; do 2 eexists; split; [reflexivity|]; observe'; reflexivity).
    right. repeat split. eexists; reflexivity.
  - paths_by fail traced (Mobile account h b); observe'; try reflexivity;
      left; do 2 eexists; (split; [reflexivity|]); observe'; reflexivity.
Qed.

(** X3. With a session provider that starts from [k] pages, never fails
    and drops one page per page closed, and fuel for the extra pages, a
    phase does not get stuck in the pruning loop, and a phase that returns
    has closed exactly the pages beyond two. *)
Theorem honest_provider_no_spin (k : nat) (p : SessionPhase) (account : Account) h b :
  (forall h', pageClose env h' = Returned tt) ->
  (forall h', pages env h' = Returned (openPages k h')) ->
  (k - 2 <= fuel)%nat ->
  result (runPhase p account h b) <> Spin /\
  (result (runPhase p account h b) = Ok tt ->
   count isPageClose (emitted (runPhase p account h b)) = (openPages k h - 2)%nat).
Proof.
  intros Hc Hp Hfuel.
  assert (Hgas : forall h', (openPages k h' - 2 <= fuel)%nat)
    by (intros h'; unfold openPages; lia).
  destruct p; unfold runPhase.
  - paths_by
      ltac:(idtac; match goal with |- context [pages env ?x] => rewrite (Hp x) end)
      ltac:(fun g n x y =>
              let l := fresh "l" in let E := fresh "E" in
              let Hq := fresh "Hq" in let Hn := fresh "Hn" in
              destruct (prune_honest k Hc Hp g n x y eq_refl (Hgas _))
                as (l & E & Hq & Hn);
              rewrite E; clear E)
      (Desktop account h b);
      observe'; (split; [discriminate|]); intros; try discriminate;
      unfold openPages; cbn [count]; lia.
  - paths_by
      ltac:(idtac; match goal with |- context [pages env ?x] => rewrite (Hp x) end)
      ltac:(fun g n x y =>
              let l := fresh "l" in let E := fresh "E" in
              let Hq := fresh "Hq" in let Hn := fresh "Hn" in
              destruct (prune_honest k Hc Hp g n x y eq_refl (Hgas _))
                as (l & E & Hq & Hn);
              rewrite E; clear E)
      (Mobile account h b);
      observe'; (split; [discriminate|]); intros; try discriminate;
      unfold openPages; cbn [count]; lia.
Qed.

(** X4. Every event of a phase belongs to the account it was started for
    and to its kind: the browser is created for the account's mail and
    proxy with the phase's [isMobile] flag, the proxy and the login get the
    account's own credentials, the search and the points fetch carry the
    phase's flag, the three Desktop-only executors appear in the Desktop
    phase only, and nothing is forked or sent. *)
Theorem phase_keeps_to_its_account (p : SessionPhase) (account : Account) h b :
  Forall (belongs account (isMobile p)) (emitted (runPhase p account h b)).
Proof.
  destruct p; unfold runPhase, isMobile.
  - paths_by fail traced (Desktop account h b); cbn [emitted snd];
      repeat first [ apply quiet_belongs; assumption
                   | apply Forall_nil
                   | apply Forall_cons
                   | apply Forall_app; split ];
      cbn; auto.
  - paths_by fail traced (Mobile account h b); cbn [emitted snd];
      repeat first [ apply quiet_belongs; assumption
                   | apply Forall_nil
                   | apply Forall_cons
                   | apply Forall_app; split ];
      cbn; auto.
Qed.

(** X5. Outside the pruning loop the calls of a phase come in the order
    of the program text, each at most once: browser, page, proxy
    authentication, login, home, dashboard, earnable points, daily set,
    more promotions, punch cards, search, second points fetch, close. *)
Theorem phase_stage_order (p : SessionPhase) (account : Account) h b :
  increasing (ranks (emitted (runPhase p account h b))) = true.
Proof.
  destruct p; unfold runPhase.
  - paths_by fail traced (Desktop account h b); observe'; reflexivity.
  - paths_by fail traced (Mobile account h b); observe'; reflexivity.
Qed.

(** X6. What [goHome] answers decides in the Desktop phase only: there the
    dashboard is fetched just when the answer was [true]; the Mobile phase
    goes on to fetch the dashboard whatever the answer was. *)
Theorem home_answer_matters_on_desktop_only (account : Account) h b (x : bool) :
  (homeAnswer (emitted (Desktop account h b)) = Some x ->
   count isDashboardFetch (emitted (Desktop account h b)) = (if x then 1 else 0)%nat) /\
  (homeAnswer (emitted (Mobile account h b)) = Some x ->
   count isDashboardFetch (emitted (Mobile account h b)) = 1%nat).
Proof.
  split.
  - paths_by fail traced (Desktop account h b); observe'; intros Hx;
      try discriminate; injection Hx as <-; reflexivity.
  - paths_by fail traced (Mobile account h b); observe'; intros Hx;
      try discriminate; reflexivity.
Qed.

(** ** More on the sequencer *)

(** The books of one phase: whom it opened a Desktop session for, browsers
    obtained against calls to close, what it leaves of the bot. *)
Lemma Desktop_ledger (account : Account) h b :
  desktopMails (emitted (Desktop account h b)) = [email account] /\
  (count isClose (emitted (Desktop account h b)) <=
   count isOpened (emitted (Desktop account h b)) <= 1)%nat /\
  (result (Desktop account h b) = Ok tt ->
   count isClose (emitted (Desktop account h b)) = 1%nat).
Proof.
  paths_by fail traced (Desktop account h b); observe';
    (split; [reflexivity|]); (split; [lia|]); intros; congruence.
Qed.

Lemma Mobile_ledger (account : Account) h b :
  desktopMails (emitted (Mobile account h b)) = [] /\
  (count isClose (emitted (Mobile account h b)) <=
   count isOpened (emitted (Mobile account h b)) <= 1)%nat /\
  (result (Mobile account h b) = Ok tt ->
   count isClose (emitted (Mobile account h b)) = 1%nat).
Proof.
  paths_by fail traced (Mobile account h b); observe';
    (split; [reflexivity|]); (split; [lia|]); intros; congruence.
Qed.

Lemma runAccount_ledger (account : Account) h b :
  desktopMails (emitted (runAccount account h b)) = [email account] /\
  (count isClose (emitted (runAccount account h b)) <=
   count isOpened (emitted (runAccount account h b)) <=
   count isClose (emitted (runAccount account h b)) + 1)%nat /\
  (result (runAccount account h b) = Ok tt ->
   count isOpened (emitted (runAccount account h b)) =
   count isClose (emitted (runAccount account h b))) /\
  (count isMobileSession (emitted (runAccount account h b)) <= 1)%nat /\
  activeWorkers (after (runAccount account h b)) = activeWorkers b /\
  accounts (after (runAccount account h b)) = accounts b.
Proof.
  rewrite runAccount_eq.
  pose proof (Desktop_ledger account (Logged "MAIN-WORKER" Info :: h) b) as (Hm & Hb & Hok).
  pose proof (Desktop_footprint account (Logged "MAIN-WORKER" Info :: h) b)
    as (_ & Hms & _ & Haw & Hacc).
  destruct (Desktop account (Logged "MAIN-WORKER" Info :: h) b) as [[[[]|f|c|] b1] l1];
    cbn [result after emitted fst snd] in *;
    try (rewrite desktopMails_app, !count_app, Hm, Hms; cbn;
         repeat split; try assumption; try lia; discriminate).
  specialize (Hok eq_refl).
  destruct (shouldSkip _ _); cbn [result after emitted fst snd].
  { rewrite desktopMails_app, !count_app, Hm, Hms. cbn.
    repeat split; try assumption; lia. }
  pose proof (Mobile_ledger account (l1 ++ Logged "MAIN-WORKER" Info :: h) b1) as (Hm' & Hb' & Hok').
  pose proof (Mobile_footprint account (l1 ++ Logged "MAIN-WORKER" Info :: h) b1)
    as (_ & Hms' & _ & Haw' & Hacc').
  destruct (Mobile account (l1 ++ Logged "MAIN-WORKER" Info :: h) b1) as [[[[]|f|c|] b2] l2];
    cbn [result after emitted fst snd desktopMails count isClose isOpened
         isMobileSession] in *;
    rewrite ?desktopMails_app, ?count_app, ?Hm, ?Hm', ?Hms, ?Hms'; cbn;
    repeat split; try congruence; try lia; try discriminate.
  intros _. specialize (Hok' eq_refl). lia.
Qed.

Lemma forAccounts_ledger (chunk : list Account) :
  forall h b,
    (exists rest,
       map email chunk = desktopMails (emitted (forAccounts chunk h b)) ++ rest /\
       (result (forAccounts chunk h b) = Ok tt -> rest = [])) /\
    (count isClose (emitted (forAccounts chunk h b)) <=
     count isOpened (emitted (forAccounts chunk h b)) <=
     count isClose (emitted (forAccounts chunk h b)) + 1)%nat /\
    (result (forAccounts chunk h b) = Ok tt ->
     count isOpened (emitted (forAccounts chunk h b)) =
     count isClose (emitted (forAccounts chunk h b))) /\
    (count isMobileSession (emitted (forAccounts chunk h b)) <=
     List.length (desktopMails (emitted (forAccounts chunk h b))))%nat /\
    activeWorkers (after (forAccounts chunk h b)) = activeWorkers b /\
    accounts (after (forAccounts chunk h b)) = accounts b.
Proof.
  induction chunk as [|a chunk IH]; intros h b; cbn [forAccounts].
  - cbn. repeat split; try lia. exists []. split; reflexivity.
  - unfold bind.
    pose proof (runAccount_ledger a h b) as (Hm & Hb & Hok & Hms & Haw & Hacc).
    destruct (runAccount a h b) as [[[[]|f|c|] b1] l1];
      cbn [result after emitted fst snd map] in *;
      try (rewrite Hm;
           (split; [exists (map email chunk); split; [reflexivity | discriminate]|]);
           cbn [List.length]; repeat split; try assumption; try discriminate; lia).
    specialize (Hok eq_refl).
    pose proof (IH (l1 ++ h) b1) as ((rest & Hpre & Hrest) & Hb' & Hok' & Hms' & Haw' & Hacc').
    destruct (forAccounts chunk (l1 ++ h) b1) as [[r b2] l2].
    cbn [result after emitted fst snd] in *.
    rewrite desktopMails_app, !count_app, Hm, length_app. cbn [app List.length].
    repeat split; try congruence; try lia.
    + exists rest. split; [now rewrite Hpre | exact Hrest].
    + intros Hr. specialize (Hok' Hr). lia.
Qed.

(** X7. A lane works through its chunk in order, one Desktop session per
    account: the accounts a Desktop session was asked for are an initial
    part of the chunk, and the whole chunk when [runTasks] ends the
    process; the Mobile sessions are no more than the Desktop ones. *)
Theorem accounts_in_chunk_order (chunk : list Account) h b :
  (exists rest,
     map email chunk = desktopMails (emitted (runTasks chunk h b)) ++ rest) /\
  (result (runTasks chunk h b) = Exit 0 ->
   desktopMails (emitted (runTasks chunk h b)) = map email chunk) /\
  (count isMobileSession (emitted (runTasks chunk h b)) <=
   List.length (desktopMails (emitted (runTasks chunk h b))))%nat.
Proof.
  unfold runTasks, bind.
  pose proof (forAccounts_ledger chunk h b) as ((rest & Hpre & Hrest) & _ & _ & Hms & _).
  pose proof (forAccounts_transport chunk h b) as (_ & Hx).
  destruct (forAccounts chunk h b) as [[[[]|f|c|] b1] l1];
    cbn [result after emitted fst snd log processExit app] in *;
    try (split; [exists rest; exact Hpre | split; [discriminate | exact Hms]]);
    try (now elim (Hx c)).
  cbn [desktopMails count isMobileSession]. rewrite !app_nil_r.
  rewrite (Hrest eq_refl), app_nil_r in Hpre.
  split; [exists []; now rewrite app_nil_r | split; [now intros _ | exact Hms]].
Qed.

(** X8. A lane has at most one browser it has not asked to close, and
    none when [runTasks] ends the process. *)
Theorem lane_session_balance (chunk : list Account) h b :
  (count isClose (emitted (runTasks chunk h b)) <=
   count isOpened (emitted (runTasks chunk h b)) <=
   count isClose (emitted (runTasks chunk h b)) + 1)%nat /\
  (result (runTasks chunk h b) = Exit 0 ->
   count isOpened (emitted (runTasks chunk h b)) =
   count isClose (emitted (runTasks chunk h b))).
Proof.
  unfold runTasks, bind.
  pose proof (forAccounts_ledger chunk h b) as (_ & Hb & Hok & _).
  pose proof (forAccounts_transport chunk h b) as (_ & Hx).
  destruct (forAccounts chunk h b) as [[[[]|f|c|] b1] l1];
    cbn [result after emitted fst snd log processExit app] in *;
    try (split; [exact Hb | discriminate]);
    try (now elim (Hx c)).
  cbn [count isClose isOpened]. cbn [Nat.add].
  split; [exact Hb | intros _; exact (Hok eq_refl)].
Qed.

(** X9. [runTasks] does not return to its caller: it ends the process,
    always with code 0, or a fault escapes it, or it is stuck in a pruning
    loop; an empty chunk ends the process at once.  It leaves
    [activeWorkers] and [accounts] alone. *)
Theorem runTasks_never_returns (chunk : list Account) h b :
  match result (runTasks chunk h b) with
  | Ok _ => False
  | Exit c => c = 0
  | Raise _ | Spin => chunk <> []
  end /\
  activeWorkers (after (runTasks chunk h b)) = activeWorkers b /\
  accounts (after (runTasks chunk h b)) = accounts b.
Proof.
  unfold runTasks, bind.
  pose proof (forAccounts_ledger chunk h b) as (_ & _ & _ & _ & Haw & Hacc).
  pose proof (forAccounts_transport chunk h b) as (_ & Hx).
  destruct chunk as [|a chunk].
  - cbn. repeat split.
  - destruct (forAccounts (a :: chunk) h b) as [[[[]|f|c|] b1] l1];
      cbn [result after emitted fst snd log processExit app] in *;
      repeat split; try assumption; try discriminate.
    now elim (Hx c).
Qed.

(** ** More on the coordinator *)

(** X10. The live count of the primary starts from the configured number
    of clusters, not from the number of lanes forked: when the partitioner
    yields fewer chunks than clusters, the primary is still running, with
    a positive count, after every lane it forked has reported its exit. *)
Theorem primary_outlives_missing_lanes
    (signals : list (nat * Z)) h (chunks : list (list Account)) :
  1 < clusters cfg ->
  chunkArray utils loadAccounts (clusters cfg) = Returned chunks ->
  (List.length chunks < Z.to_nat (clusters cfg))%nat ->
  (List.length signals <= List.length chunks)%nat ->
  count isFork (emitted (coordinator signals h newBot)) = List.length chunks /\
  result (coordinator signals h newBot) = Ok tt /\
  0 < activeWorkers (after (coordinator signals h newBot)).
Proof.
  intros Hn Hc Hfew Hsig.
  destruct (coordinator_spec signals h chunks Hn Hc) as (Hr & Ha & Hf).
  rewrite Hr, Ha, Hf. cbn [activeWorkers].
  destruct (Nat.leb_spec (Z.to_nat (clusters cfg)) (List.length signals)); [lia|].
  repeat split. lia.
Qed.

(** X11. Whatever exit notifications arrive, the live count of the primary
    stays between zero and the configured number of clusters, the process
    ends with no other code than 0, and the primary itself opens no
    browser. *)
Theorem live_count_bounds (signals : list (nat * Z)) h (chunks : list (list Account)) :
  1 < clusters cfg ->
  chunkArray utils loadAccounts (clusters cfg) = Returned chunks ->
  0 <= activeWorkers (after (coordinator signals h newBot)) <= clusters cfg /\
  (forall c, result (coordinator signals h newBot) = Exit c -> c = 0) /\
  (forall f, result (coordinator signals h newBot) <> Raise f) /\
  count isSession (emitted (coordinator signals h newBot)) = 0%nat.
Proof.
  intros Hn Hc.
  destruct (coordinator_spec signals h chunks Hn Hc) as (Hr & Ha & _).
  rewrite Hr, Ha. cbn [activeWorkers].
  split; [lia|]. split; [|split].
  - intros c. destruct (_ <=? _)%nat; congruence.
  - intros f. destruct (_ <=? _)%nat; congruence.
  - unfold coordinator, bind. rewrite (main_primary h chunks Hn Hc).
    set (h' := (rev (fanOut 0 chunks) ++ _) ++ h).
    set (b := mkBot 0 (clusters cfg) loadAccounts).
    assert (Hd : forall sigs x y, count isSession (emitted (deliver sigs x y)) = 0%nat).
    { clear. induction sigs as [|[worker code] sigs IH]; intros x [cp aw acc]; [reflexivity|].
      cbn [deliver]. unfold onExit.
      cbv beta iota zeta delta [bind log this ret setActiveWorkers processExit].
      cbn [app activeWorkers collectedPoints accounts].
      destruct (aw - 1 =? 0); [reflexivity|].
      specialize (IH (Logged "MAIN-WORKER" Warn :: x) (mkBot cp (aw - 1) acc)).
      destruct (deliver sigs _ _) as [[r b2] l2].
      cbn [emitted snd] in *. rewrite !count_app, IH. reflexivity. }
    specialize (Hd signals h' b).
    destruct (deliver signals h' b) as [[r b2] l2].
    cbn [emitted snd] in *. rewrite !count_app, Hd.
    assert (Hfan : forall cs i, count isSession (rev (fanOut i cs)) = 0%nat).
    { clear. induction cs as [|c cs IH]; intros i; [reflexivity|].
      cbn [fanOut rev]. rewrite !count_app, IH. reflexivity. }
    rewrite Hfan. reflexivity.
Qed.

(** X12. Each process works on the right list.  With more than one cluster
    a forked process asks for Desktop sessions for the accounts of the
    chunk it was sent, in order and all of them when it ends with
    [process.exit], not for the accounts it loaded itself, and forks
    nothing; with one cluster or fewer the process does the same with the
    accounts it loaded. *)
Theorem process_works_its_list (chunk : list Account) (isPrimary : bool) h :
  (1 < clusters cfg ->
   (exists rest,
      map email chunk = desktopMails (emitted (lane chunk h newBot)) ++ rest) /\
   (result (lane chunk h newBot) = Exit 0 ->
    desktopMails (emitted (lane chunk h newBot)) = map email chunk) /\
   transport (emitted (lane chunk h newBot)) = []) /\
  (clusters cfg <= 1 ->
   (exists rest,
      map email loadAccounts =
        desktopMails (emitted (main isPrimary h newBot)) ++ rest) /\
   (result (main isPrimary h newBot) = Exit 0 ->
    desktopMails (emitted (main isPrimary h newBot)) = map email loadAccounts)).
Proof.
  assert (Hrun : forall accs x y,
            (exists rest,
               map email accs = desktopMails (emitted (runTasks accs x y)) ++ rest) /\
            (result (runTasks accs x y) = Exit 0 ->
             desktopMails (emitted (runTasks accs x y)) = map email accs) /\
            transport (emitted (runTasks accs x y)) = []).
  { intros accs x y. split; [|split; [|apply runTasks_transport]];
      unfold runTasks, bind;
      pose proof (forAccounts_ledger accs x y) as ((rest & Hpre & Hrest) & _);
      pose proof (forAccounts_transport accs x y) as (_ & Hx);
      destruct (forAccounts accs x y) as [[[[]|f|c|] b1] l1];
      cbn [result after emitted fst snd log processExit app desktopMails] in *;
      rewrite ?app_nil_r;
      try (exists rest; exact Hpre); try discriminate; try (now elim (Hx c)).
    intros _. rewrite (Hrest eq_refl), app_nil_r in Hpre. now symmetry. }
  split.
  - intros Hn. apply Z.ltb_lt in Hn.
    unfold lane, main, run, runWorker, onMessage, initialize, newBot. rewrite Hn.
    cbv beta iota zeta delta [bind log setAccounts].
    cbn [app accounts collectedPoints activeWorkers].
    match goal with |- context [runTasks chunk ?x ?y] =>
      destruct (Hrun chunk x y) as ((rest & Hpre) & Hall & Ht);
      destruct (runTasks chunk x y) as [[r b2] l2]
    end.
    cbn [result emitted fst snd] in *.
    rewrite !desktopMails_app, !transport_app, Ht. cbn [desktopMails transport app].
    rewrite ?app_nil_r.
    split; [exists rest; exact Hpre | split; [exact Hall | reflexivity]].
  - intros Hn. assert (E : (1 <? clusters cfg) = false) by (apply Z.ltb_ge; lia).
    unfold main, run, initialize, newBot. rewrite E.
    cbv beta iota zeta delta [bind log this setAccounts].
    cbn [app accounts collectedPoints activeWorkers].
    match goal with |- context [runTasks loadAccounts ?x ?y] =>
      destruct (Hrun loadAccounts x y) as ((rest & Hpre) & Hall & _);
      destruct (runTasks loadAccounts x y) as [[r b2] l2]
    end.
    cbn [result emitted fst snd] in *.
    rewrite !desktopMails_app. cbn [desktopMails app]. rewrite ?app_nil_r.
    split; [exists rest; exact Hpre | exact Hall].
Qed.

(** ** Why a lane stops *)

Lemma faulted_app l1 l2 : faulted l1 -> faulted (l1 ++ l2).
Proof.
  intros [H|H]; [left | right].
  - rewrite count_app. lia.
  - now rewrite homeAnswer_app, H.
Qed.

Lemma stuck_app l1 l2 : stuck l1 -> stuck (l1 ++ l2).
Proof. intros (m & l' & -> & Hm). exists m, (l' ++ l2). split; [reflexivity | exact Hm]. Qed.

(** The loop with its three ways to end told apart: it returns; it is
    still running, and then the last answer about the pages was more than
    two; or one of its calls threw, as the last thing it did. *)
Lemma prune_outcome gas n h b :
  exists r l, prune gas n h b = (r, b, l) /\ quiet l /\
    ((r = Ok tt) \/
     (r = Spin /\ ((l = [] /\ (2 < n)%nat) \/ stuck l)) \/
     (exists f c l', r = Raise f /\ l = Called c (Threw f) :: l')).
Proof.
  revert n h. induction gas as [|gas IH]; intros n h; simpl;
    destruct (Nat.ltb_spec 2 n) as [Hn|Hn].
  - exists Spin, []. repeat split; [constructor | right; left; auto].
  - exists (Ok tt), []. repeat split; [constructor | left; auto].
  - unfold bind, invoke.
    destruct (pageClose env h) as [[]|f].
    2:{ exists (Raise f), [Called PageClose (Threw f)].
        repeat split; [repeat constructor | right; right; eauto]. }
    simpl. destruct (pages env _) as [n'|f].
    2:{ exists (Raise f), [Called Pages (Threw f); Called PageClose (Returned VUnit)].
        repeat split; [repeat constructor | right; right; eauto]. }
    simpl.
    destruct (IH n' (Called Pages (Returned (VNat n')) ::
                     Called PageClose (Returned VUnit) :: h))
      as (r & l & E & Hq & Hr).
    rewrite E.
    exists r, ((l ++ [Called Pages (Returned (VNat n'))]) ++ [Called PageClose (Returned VUnit)]).
    split; [|split].
    + destruct Hr as [-> | [(-> & _) | (f & c & l' & -> & _)]]; reflexivity.
    + unfold quiet. rewrite !Forall_app. repeat split; try assumption; repeat constructor.
    + destruct Hr as [Hr | [(Hr & Hs) | (f & c & l' & -> & ->)]].
      * left. exact Hr.
      * right. left. split; [exact Hr|]. right.
        destruct Hs as [(-> & Hn') | Hs].
        -- exists n', [Called PageClose (Returned VUnit)]. split; [reflexivity | exact Hn'].
        -- rewrite <- app_assoc. now apply stuck_app.
      * right. right. do 3 eexists. split; reflexivity.
  - exists (Ok tt), []. repeat split; [constructor | left; auto].
Qed.

Ltac told g n h b :=
  let r := fresh "r" in let l := fresh "l" in let l' := fresh "l" in
  let E := fresh "E" in let Hq := fresh "Hq" in let Hs := fresh "Hs" in
  let f := fresh "f" in let c := fresh "c" in let m := fresh "m" in
  let Hn := fresh "Hn" in
  destruct (prune_outcome g n h b)
    as (r & l & E & Hq &
        [-> | [(-> & [(-> & Hn) | (m & l' & -> & Hn)]) | (f & c & l' & -> & ->)]]);
  rewrite E; clear E.

(** Why a phase did not return: a fault has a thrown call or a failed
    [goHome] behind it, a phase still running is in the pruning loop. *)
Lemma phase_stop_cause (p : SessionPhase) (account : Account) h b :
  match result (runPhase p account h b) with
  | Ok _ => True
  | Exit _ => False
  | Raise _ => faulted (emitted (runPhase p account h b))
  | Spin => stuck (emitted (runPhase p account h b))
  end.
Proof.
  destruct p; unfold runPhase.
  - paths_by fail told (Desktop account h b); cbn [result emitted fst snd app];
      try exact I;
      try (left; cbn [count isThrow]; lia);
      try (right; reflexivity);
      do 2 eexists; (split; [reflexivity | assumption]).
  - paths_by fail told (Mobile account h b); cbn [result emitted fst snd app];
      try exact I;
      try (left; cbn [count isThrow]; lia);
      do 2 eexists; (split; [reflexivity | assumption]).
Qed.

Lemma runAccount_stop_cause (account : Account) h b :
  match result (runAccount account h b) with
  | Ok _ => True
  | Exit _ => False
  | Raise _ => faulted (emitted (runAccount account h b))
  | Spin => stuck (emitted (runAccount account h b))
  end.
Proof.
  rewrite runAccount_eq.
  pose proof (phase_stop_cause DesktopPhase account (Logged "MAIN-WORKER" Info :: h) b) as Hd.
  cbn [runPhase] in Hd.
  destruct (Desktop account (Logged "MAIN-WORKER" Info :: h) b) as [[[[]|f|c|] b1] l1];
    cbn [result emitted fst snd] in *;
    try (now apply faulted_app); try (now apply stuck_app); try assumption.
  destruct (shouldSkip _ _); [exact I|].
  pose proof (phase_stop_cause MobilePhase account
                (l1 ++ Logged "MAIN-WORKER" Info :: h) b1) as Hm.
  cbn [runPhase] in Hm.
  destruct (Mobile account (l1 ++ Logged "MAIN-WORKER" Info :: h) b1) as [[[[]|f|c|] b2] l2];
    cbn [result emitted fst snd] in *;
    try (now apply faulted_app); try (now apply stuck_app); try assumption.
Qed.

Lemma forAccounts_stop_cause (chunk : list Account) :
  forall h b,
    match result (forAccounts chunk h b) with
    | Ok _ => True
    | Exit _ => False
    | Raise _ => faulted (emitted (forAccounts chunk h b))
    | Spin => stuck (emitted (forAccounts chunk h b))
    end.
Proof.
  induction chunk as [|a chunk IH]; intros h b; cbn [forAccounts]; [exact I|].
  unfold bind.
  pose proof (runAccount_stop_cause a h b) as Ha.
  destruct (runAccount a h b) as [[[[]|f|c|] b1] l1];
    cbn [result emitted fst snd] in *; try assumption.
  specialize (IH (l1 ++ h) b1).
  destruct (forAccounts chunk (l1 ++ h) b1) as [[[[]|f|c|] b2] l2];
    cbn [result emitted fst snd] in *;
    try (now apply faulted_app); try (now apply stuck_app); try assumption.
Qed.

(** What [runTasks] has to show for itself when it is over. *)
Lemma runTasks_report (chunk : list Account) h b :
  transport (emitted (runTasks chunk h b)) = [] /\
  (exists rest, map email chunk = desktopMails (emitted (runTasks chunk h b)) ++ rest) /\
  match result (runTasks chunk h b) with
  | Ok _ => False
  | Exit c => c = 0 /\ desktopMails (emitted (runTasks chunk h b)) = map email chunk
  | Raise _ => faulted (emitted (runTasks chunk h b))
  | Spin => stuck (emitted (runTasks chunk h b))
  end.
Proof.
  split; [apply runTasks_transport|].
  unfold runTasks, bind.
  pose proof (forAccounts_ledger chunk h b) as ((rest & Hpre & Hrest) & _).
  pose proof (forAccounts_stop_cause chunk h b) as Hs.
  destruct (forAccounts chunk h b) as [[[[]|f|c|] b1] l1];
    cbn [result after emitted fst snd log processExit app desktopMails] in *;
    rewrite ?app_nil_r;
    try contradiction;
    try (split; [exists rest; exact Hpre | assumption]).
  rewrite (Hrest eq_refl), app_nil_r in Hpre.
  split; [exists []; now rewrite app_nil_r | split; [reflexivity | now symmetry]].
Qed.

(** C10. With more than one cluster configured the primary only
    distributes: it forks a lane per chunk and sends that lane its chunk,
    chunk after chunk, calls no collaborator (so it opens no session for
    any account) and returns.  With one cluster or fewer the process,
    primary or not, is [runTasks] on all the loaded accounts, and neither
    forks nor sends: it asks for a Desktop session account after account in
    the order loaded and does not return; it ends with [process.exit(0)]
    having done so for every loaded account, or with a fault that has a
    thrown call or a failed [goHome] behind it, or it is still in the
    pruning loop of a session. *)
Theorem run_distribution h (chunks : list (list Account)) (isPrimary : bool) :
  (1 < clusters cfg ->
   chunkArray utils loadAccounts (clusters cfg) = Returned chunks ->
   result (main true h newBot) = Ok tt /\
   transport (emitted (main true h newBot)) = fanOut 0 chunks /\
   count isFork (emitted (main true h newBot)) = List.length chunks /\
   count isCall (emitted (main true h newBot)) = 0%nat) /\
  (clusters cfg <= 1 ->
   main isPrimary h newBot =
     (initialize ;; log "MAIN" Info ;; runTasks loadAccounts) h newBot /\
   transport (emitted (main isPrimary h newBot)) = [] /\
   (exists rest,
      map email loadAccounts =
        desktopMails (emitted (main isPrimary h newBot)) ++ rest) /\
   match result (main isPrimary h newBot) with
   | Ok _ => False
   | Exit c =>
       c = 0 /\
       desktopMails (emitted (main isPrimary h newBot)) = map email loadAccounts
   | Raise _ => faulted (emitted (main isPrimary h newBot))
   | Spin => stuck (emitted (main isPrimary h newBot))
   end).
Proof.
  split.
  - intros Hn Hc. rewrite (main_primary h chunks Hn Hc).
    cbn [result emitted fst snd].
    destruct (fanOut_observed chunks 0%nat) as (Ht & Hf & Hcalls).
    rewrite transport_app, !count_app, Ht, Hf, Hcalls. cbn.
    rewrite ?app_nil_r. repeat split; lia.
  - intros Hn. assert (E : (1 <? clusters cfg) = false) by (apply Z.ltb_ge; lia).
    assert (Hmain : main isPrimary h newBot =
                    (initialize ;; log "MAIN" Info ;; runTasks loadAccounts) h newBot).
    { unfold main, run, initialize, newBot. rewrite E.
      cbv beta iota zeta delta [bind log this setAccounts].
      cbn [app accounts collectedPoints activeWorkers].
      destruct (runTasks loadAccounts _ _) as [[r b2] l2].
      now rewrite !app_nil_r. }
    split; [exact Hmain|].
    rewrite Hmain. unfold initialize.
    cbv beta iota zeta delta [bind log setAccounts].
    pose proof (runTasks_report loadAccounts
                  (([Logged "MAIN" Info] ++ [] ++ h))
                  (mkBot (collectedPoints newBot) (activeWorkers newBot) loadAccounts))
      as (Ht & (rest & Hpre) & Hres).
    destruct (runTasks loadAccounts _ _) as [[r b2] l2].
    cbn [result emitted fst snd] in *.
    rewrite !transport_app, !desktopMails_app, Ht. cbn [transport desktopMails app].
    split; [reflexivity|]. split; [exists rest; exact Hpre|].
    destruct r as [[]|f|c|]; try assumption;
      try (apply faulted_app; now apply faulted_app);
      try (apply stuck_app; now apply stuck_app).
Qed.

End Orchestrator.

(** ** The theorems at work on the sample worlds *)

(** C1, as the specification words it, fails: when the login service
    rejects the credentials the Desktop phase ends with [LoginFailed] and
    [browser.close] has not been called. *)
Lemma close_skipped_when_login_fails :
  result (@Desktop lockedOut alice [] (@newBot lockedOut)) = Raise LoginFailed /\
  count isClose (emitted (@Desktop lockedOut alice [] (@newBot lockedOut))) = 0%nat /\
  count isClose (emitted (@Desktop lockedOut alice [] (@newBot lockedOut))) <> 1%nat.
Proof.
  split; [vm_compute; reflexivity|].
  split; [vm_compute; reflexivity|].
  vm_compute. discriminate.
Qed.

Lemma mobile_gate_witness :
  count isMobileSession
    (emitted (@runAccount nothingToEarn alice [] (@newBot nothingToEarn))) = 0%nat /\
  count isMobileSession
    (emitted (@runAccount thirtyTen alice [] (@newBot thirtyTen))) = 1%nat.
Proof.
  split.
  - destruct (@mobile_gate nothingToEarn alice [] (@newBot nothingToEarn)
                ltac:(vm_compute; reflexivity)) as (_ & H & _).
    exact H.
  - destruct (@mobile_gate thirtyTen alice [] (@newBot thirtyTen)
                ltac:(vm_compute; reflexivity)) as (_ & H & _).
    exact H.
Defined.

Lemma points_accounting_witness :
  collectedPoints (after (@Desktop thirtyTen alice [] (@newBot thirtyTen))) = 30 /\
  collectedPoints (after (@Mobile thirtyTen alice [] (mkBot 30 1 []))) = 20 /\
  collectedPoints (after (@Mobile thirtyZero alice [] (mkBot 30 1 []))) = 30 /\
  count isRefetch (emitted (@Mobile thirtyTen alice [] (mkBot 30 1 []))) = 1%nat /\
  count isRefetch (emitted (@Mobile picky alice [] (mkBot 30 1 []))) = 1%nat.
Proof.
  split; [|split; [|split; [|split]]].
  - destruct (@points_accounting thirtyTen alice [] (@newBot thirtyTen)) as (H & _).
    apply (H 30). vm_compute; reflexivity.
  - destruct (@points_accounting thirtyTen alice [] (mkBot 30 1 [])) as (_ & _ & H & _).
    apply (H 10). vm_compute; reflexivity.
  - destruct (@points_accounting thirtyZero alice [] (mkBot 30 1 [])) as (_ & _ & H & _).
    apply (H 0). vm_compute; reflexivity.
  - destruct (@points_accounting thirtyTen alice [] (mkBot 30 1 []))
      as (_ & _ & _ & _ & _ & _ & H & _).
    apply (H withCounter [0; 60]); vm_compute; reflexivity.
  - destruct (@points_accounting picky alice [] (mkBot 30 1 []))
      as (_ & _ & _ & _ & _ & _ & H & _).
    apply (H withCounter [0; 60]); vm_compute; reflexivity.
Defined.

Lemma coordinator_liveness_witness :
  result (@coordinator threeLanes [(2%nat, 0); (0%nat, 1); (1%nat, 0)] [] (@newBot threeLanes))
    = Exit 0 /\
  result (@coordinator threeLanes [(1%nat, 0); (2%nat, 0)] [] (@newBot threeLanes)) = Ok tt.
Proof.
  split.
  - destruct (@coordinator_liveness threeLanes [(2%nat, 0); (0%nat, 1); (1%nat, 0)] []
                [[alice]; [bob]; [carol]]
                ltac:(vm_compute; reflexivity) ltac:(vm_compute; reflexivity)
                ltac:(vm_compute; reflexivity)) as (_ & H & _).
    apply H. simpl. lia.
  - destruct (@coordinator_liveness threeLanes [(1%nat, 0); (2%nat, 0)] []
                [[alice]; [bob]; [carol]]
                ltac:(vm_compute; reflexivity) ltac:(vm_compute; reflexivity)
                ltac:(vm_compute; reflexivity)) as (_ & _ & _ & _ & H & _).
    apply H. simpl. lia.
Defined.

(** Alice gets both phases; Bob's Desktop phase cannot reach the dashboard;
    no third Desktop session is ever opened for Carol. *)
Lemma fault_aborts_lane_witness :
  result (@runTasks secondHomeFails [alice; bob; carol] [] (@newBot secondHomeFails))
    = Raise DashboardUnreachable /\
  count isSession
    (emitted (@runTasks secondHomeFails [alice; bob; carol] [] (@newBot secondHomeFails)))
    = 3%nat.
Proof.
  pose (pre := @forAccounts secondHomeFails [alice] [] (@newBot secondHomeFails)).
  destruct (@fault_aborts_lane secondHomeFails [alice] [carol] bob []
              (@newBot secondHomeFails) (after pre) (emitted pre) DashboardUnreachable
              ltac:(vm_compute; reflexivity)) as (Hhome & Hdesk & _).
  rewrite app_nil_r in Hhome, Hdesk.
  specialize (Hhome ltac:(vm_compute; reflexivity)).
  specialize (Hdesk Hhome).
  change ([alice; bob; carol]) with ([alice] ++ bob :: [carol]).
  rewrite Hdesk. split; vm_compute; reflexivity.
Defined.

Lemma desktop_gating_witness :
  executors (emitted (@Desktop nothingToEarn alice [] (@newBot nothingToEarn))) = [] /\
  executors (emitted (@Desktop picky alice [] (@newBot picky))) =
    [DailySet; PunchCards; DesktopSearch].
Proof.
  split.
  - pose proof (@desktop_gating nothingToEarn alice [] (@newBot nothingToEarn) 0
                  ltac:(vm_compute; reflexivity)) as H.
    cbv beta iota delta [shouldSkip nothingToEarn sampleWorld cfg runOnZeroPoints negb andb Z.eqb] in H.
    exact (proj1 H).
  - pose proof (@desktop_gating picky alice [] (@newBot picky) 30
                  ltac:(vm_compute; reflexivity)) as H.
    cbv beta iota delta [shouldSkip picky sampleWorld cfg runOnZeroPoints negb andb Z.eqb] in H.
    apply (proj2 H). vm_compute; reflexivity.
Defined.

Lemma mobile_skip_without_counter_witness :
  count isMobileSearch (emitted (@Mobile newcomer alice [] (mkBot 5 1 []))) = 0%nat /\
  count isClose (emitted (@Mobile newcomer alice [] (mkBot 5 1 []))) = 1%nat /\
  result (@Mobile newcomer alice [] (mkBot 5 1 [])) = Ok tt.
Proof.
  destruct (@mobile_skip_without_counter newcomer alice [] (mkBot 5 1 []) freshAccount
              ltac:(vm_compute; reflexivity) ltac:(reflexivity))
    as (H1 & H2 & _ & _).
  split; [exact H1|]. split; [exact H2|]. vm_compute; reflexivity.
Defined.

Lemma mobile_accounting_not_flag_gated_witness :
  count isMobileSearch (emitted (@Mobile picky alice [] (mkBot 30 1 []))) = 0%nat /\
  count isRefetch (emitted (@Mobile picky alice [] (mkBot 30 1 []))) = 1%nat /\
  collectedPoints (after (@Mobile picky alice [] (mkBot 30 1 []))) = 20.
Proof.
  destruct (@mobile_accounting_not_flag_gated picky alice [] (mkBot 30 1 [])
              withCounter [0; 60]
              ltac:(vm_compute; reflexivity) ltac:(reflexivity))
    as (H1 & H2).
  destruct (H2 ltac:(reflexivity)) as (H3 & H4).
  split; [exact H1|]. split; [exact H3|].
  apply (H4 10). vm_compute; reflexivity.
Defined.

Lemma run_distribution_witness :
  transport (emitted (@main threeLanes true [] (@newBot threeLanes))) =
    [Forked 0; Sent 0 [alice]; Forked 1; Sent 1 [bob]; Forked 2; Sent 2 [carol]] /\
  count isCall (emitted (@main threeLanes true [] (@newBot threeLanes))) = 0%nat /\
  transport (emitted (@main thirtyTen true [] (@newBot thirtyTen))) = [] /\
  result (@main thirtyTen true [] (@newBot thirtyTen)) = Exit 0 /\
  desktopMails (emitted (@main thirtyTen true [] (@newBot thirtyTen))) =
    ["alice@example.org"; "bob@example.org"; "carol@example.org"].
Proof.
  destruct (@run_distribution threeLanes [] [[alice]; [bob]; [carol]] true) as (H & _).
  destruct (H ltac:(vm_compute; reflexivity) ltac:(vm_compute; reflexivity))
    as (_ & Ht & _ & Hc).
  destruct (@run_distribution thirtyTen [] [] true) as (_ & H').
  destruct (H' ltac:(vm_compute; discriminate)) as (_ & Ht' & _ & Hres).
  assert (Hexit : result (@main thirtyTen true [] (@newBot thirtyTen)) = Exit 0)
    by (vm_compute; reflexivity).
  rewrite Hexit in Hres. destruct Hres as (_ & Hall).
  repeat split; assumption.
Defined.

(** ** The further properties on the sample worlds *)

Lemma prune_leaves_two_witness :
  exists l,
    emitted (@prune thirtyTen 8 4 [] (mkBot 0 1 [])) =
      Called Pages (Returned (VNat 2)) :: l.
Proof.
  destruct (@prune_leaves_two thirtyTen 8 4 [] (mkBot 0 1 [])
              ltac:(vm_compute; reflexivity)) as (_ & [(H & _) | (_ & m & l & E & Hm)]).
  - exfalso. lia.
  - exists l. rewrite E in *. vm_compute in E. injection E as <- _. reflexivity.
Defined.

Lemma honest_provider_no_spin_witness :
  result (@Desktop thirtyTen alice [] (@newBot thirtyTen)) <> Spin /\
  count isPageClose (emitted (@Desktop thirtyTen alice [] (@newBot thirtyTen))) = 2%nat.
Proof.
  destruct (@honest_provider_no_spin thirtyTen 4 DesktopPhase alice [] (@newBot thirtyTen)
              (fun _ => eq_refl) (fun _ => eq_refl) ltac:(vm_compute; lia))
    as (H1 & H2).
  split; [exact H1|].
  exact (H2 ltac:(vm_compute; reflexivity)).
Defined.

Lemma home_answer_matters_on_desktop_only_witness :
  count isDashboardFetch
    (emitted (@Desktop secondHomeFails bob [Called BrowserClose (Returned VUnit)]
                (@newBot secondHomeFails))) = 0%nat /\
  count isDashboardFetch
    (emitted (@Mobile secondHomeFails bob [Called BrowserClose (Returned VUnit)]
                (@newBot secondHomeFails))) = 1%nat.
Proof.
  destruct (@home_answer_matters_on_desktop_only secondHomeFails bob
              [Called BrowserClose (Returned VUnit)] (@newBot secondHomeFails) false)
    as (H1 & H2).
  split.
  - exact (H1 ltac:(vm_compute; reflexivity)).
  - exact (H2 ltac:(vm_compute; reflexivity)).
Defined.

Lemma accounts_in_chunk_order_witness :
  desktopMails (emitted (@runTasks thirtyTen [alice; bob] [] (@newBot thirtyTen))) =
    ["alice@example.org"; "bob@example.org"].
Proof.
  destruct (@accounts_in_chunk_order thirtyTen [alice; bob] [] (@newBot thirtyTen))
    as (_ & H & _).
  exact (H ltac:(vm_compute; reflexivity)).
Defined.

Lemma lane_session_balance_witness :
  count isOpened (emitted (@runTasks thirtyTen [alice; bob] [] (@newBot thirtyTen))) =
  count isClose (emitted (@runTasks thirtyTen [alice; bob] [] (@newBot thirtyTen))) /\
  count isOpened (emitted (@runTasks lockedOut [alice; bob] [] (@newBot lockedOut))) = 1%nat.
Proof.
  destruct (@lane_session_balance thirtyTen [alice; bob] [] (@newBot thirtyTen))
    as (_ & H).
  split; [exact (H ltac:(vm_compute; reflexivity)) | vm_compute; reflexivity].
Defined.

Lemma primary_outlives_missing_lanes_witness :
  result (@coordinator lumped [(0%nat, 0)] [] (@newBot lumped)) = Ok tt /\
  0 < activeWorkers (after (@coordinator lumped [(0%nat, 0)] [] (@newBot lumped))).
Proof.
  destruct (@primary_outlives_missing_lanes lumped [(0%nat, 0)] []
              [[alice; bob; carol]]
              ltac:(vm_compute; reflexivity) ltac:(vm_compute; reflexivity)
              ltac:(vm_compute; lia) ltac:(vm_compute; lia))
    as (_ & H1 & H2).
  split; assumption.
Defined.

Lemma live_count_bounds_witness :
  0 <= activeWorkers
         (after (@coordinator threeLanes [(1%nat, 0); (2%nat, 1)] [] (@newBot threeLanes)))
    <= 3.
Proof.
  destruct (@live_count_bounds threeLanes [(1%nat, 0); (2%nat, 1)] []
              [[alice]; [bob]; [carol]]
              ltac:(vm_compute; reflexivity) ltac:(vm_compute; reflexivity))
    as (H & _).
  exact H.
Defined.

Lemma process_works_its_list_witness :
  desktopMails (emitted (@lane threeLanes [bob] [] (@newBot threeLanes))) =
    ["bob@example.org"] /\
  desktopMails (emitted (@main thirtyTen true [] (@newBot thirtyTen))) =
    ["alice@example.org"; "bob@example.org"; "carol@example.org"].
Proof.
  destruct (@process_works_its_list threeLanes [bob] true []) as (H & _).
  destruct (H ltac:(vm_compute; reflexivity)) as (_ & Hall & _).
  destruct (@process_works_its_list thirtyTen [] true []) as (_ & H').
  destruct (H' ltac:(vm_compute; discriminate)) as (_ & Hall').
  split.
  - exact (Hall ltac:(vm_compute; reflexivity)).
  - exact (Hall' ltac:(vm_compute; reflexivity)).
Defined.
